(** * Exposure-correcting frame pipeline ([main.py])

    A shallow embedding of [analizza_e_modifica_video] and of the OpenCV /
    NumPy primitives it calls, followed by the properties of the pipeline.

    Conventions of the embedding.
    - A Python [float] is a binary64 number, here a primitive [float]:
      division, comparison and negation are the IEEE 754 operations, with
      their rounding, infinities and NaN.  A Python [int] argument is the
      binary64 it converts to.
    - [cv2.convertScaleAbs] computes in binary32: these values are
      [spec_float]s at precision 24, with the library's operations.
    - 8-bit channel intensities are integers ([Z]); what the library stores
      is always produced through [saturate_cast_uchar].
    - The function runs in a state-and-exception monad: the state holds the
      two stream handles, the container created by the writer, the frames
      written, the console output and the trace of luminance measurements.
      A raised exception keeps the state reached so far; a return runs the
      finalisers of the local objects. *)

From Stdlib Require Import ZArith QArith Qround Qabs List String Ascii Bool Lia Lqa.
From Stdlib Require Import Floats.
Import ListNotations.
Open Scope Z_scope.

(** ** Integers and rationals *)

Module Numeri.

(** Truncation toward zero of a rational. *)
Definition tronca (x : Q) : Z := Z.quot (Qnum x) (Zpos (Qden x)).

(** Nearest integer of a rational, a tie goes to the even neighbour. *)
Definition arrotonda (x : Q) : Z :=
  let m := Qfloor (x + (1 # 2)) in
  if Qeq_bool (inject_Z m) (x + (1 # 2)) && Z.odd m then m - 1 else m.

(** OpenCV [saturate_cast<uchar>(int)]. *)
Definition saturate_cast_uchar (z : Z) : Z :=
  if z <? 0 then 0 else if 255 <? z then 255 else z.

(** The specification's [clamp(x, lo, hi)]. *)
Definition clamp (x lo hi : Z) : Z := Z.max lo (Z.min hi x).

End Numeri.
Export Numeri.

(** ** Floating point *)

Module Binario.

(** The number a finite floating-point datum denotes; 0 for the others. *)
Definition valore_sf (x : spec_float) : Q :=
  match x with
  | S754_finite s m e =>
      let n := if s then Zneg m else Zpos m in
      match e with
      | Z0 => inject_Z n
      | Zpos p => inject_Z (n * 2 ^ Zpos p)
      | Zneg p => n # (2 ^ p)%positive
      end
  | _ => 0
  end.

Definition finito_sf (x : spec_float) : bool :=
  match x with
  | S754_zero _ | S754_finite _ _ _ => true
  | S754_infinity _ | S754_nan => false
  end.

(** Binary64. *)
Definition valore (x : float) : Q := valore_sf (Prim2SF x).
Definition finito (x : float) : bool := finito_sf (Prim2SF x).

(** Python [x == 0]: true of both zeros. *)
Definition nullo (x : float) : bool := (x =? 0)%float.

(** An integer converted to binary64, rounded to nearest even. *)
Definition b64_of_Z (z : Z) : float := SF2Prim (binary_normalize 53 1024 z 0 false).

(** Binary32: a C [float]. *)
Definition b32_mul : spec_float -> spec_float -> spec_float := SFmul 24 128.
Definition b32_add : spec_float -> spec_float -> spec_float := SFadd 24 128.

(** The C conversion [(float)x] of a [double]. *)
Definition b32_of_sf (x : spec_float) : spec_float :=
  match x with
  | S754_finite s m e => binary_round 24 128 s m e
  | _ => x
  end.
Definition b32_of_b64 (x : float) : spec_float := b32_of_sf (Prim2SF x).

(** The C conversion [(float)v] of an integer. *)
Definition b32_of_Z (v : Z) : spec_float := binary_normalize 24 128 v 0 false.

End Binario.
Export Binario.

(** ** Frames and the pixel primitives of the media library *)

Record Pixel : Type := mkPixel { blu : Z; verde : Z; rosso : Z }.

(** A decoded frame is a [larghezza * altezza] grid of BGR pixels, kept in
    row-major order.  [cap.read()] hands out a frame only together with
    [ret = True], and such a frame holds at least one pixel. *)
Record Frame : Type := mkFrame { primo_pixel : Pixel; altri_pixel : list Pixel }.

Definition pixel_di (f : Frame) : list Pixel := primo_pixel f :: altri_pixel f.

Definition map_frame (g : Pixel -> Pixel) (f : Frame) : Frame :=
  mkFrame (g (primo_pixel f)) (map g (altri_pixel f)).

Definition map_canali (g : Z -> Z) (p : Pixel) : Pixel :=
  mkPixel (g (blu p)) (g (verde p)) (g (rosso p)).

Definition canali (p : Pixel) : list Z := [blu p; verde p; rosso p].

(** Every channel value of a frame, pixel after pixel. *)
Definition canali_frame (f : Frame) : list Z := flat_map canali (pixel_di f).

Definition canale_valido (v : Z) : Prop := 0 <= v <= 255.

Definition frame_valido (f : Frame) : Prop := Forall canale_valido (canali_frame f).

(** A frame of [S n] pixels whose three channels all hold [v]. *)
Definition frame_uniforme (v : Z) (n : nat) : Frame :=
  mkFrame (mkPixel v v v) (repeat (mkPixel v v v) n).

Module Cv2.

(** The least [int]: what the SSE conversion of a [float] to [int] gives
    when the rounded value has no [int], and for NaN. *)
Definition INT_MIN : Z := - 2 ^ 31.

(** [cvRound(float)], as compiled for x86-64: to nearest, ties to even. *)
Definition cvRound (x : spec_float) : Z :=
  if finito_sf x then
    let n := arrotonda (valore_sf x) in
    if (INT_MIN <=? n) && (n <? 2 ^ 31) then n else INT_MIN
  else INT_MIN.

(** [cv2.convertScaleAbs] on one 8-bit channel:
    [saturate_cast<uchar>(std::abs(src * a + b))] with [a] and [b] the
    arguments converted to [float], the arithmetic in [float].  With
    [b = 0], the only value this program passes, the vectorised path
    (one fused multiply-add) computes the same [float]. *)
Definition scala_canale (alpha beta : float) (v : Z) : Z :=
  let a := b32_of_b64 alpha in
  let b := b32_of_b64 beta in
  saturate_cast_uchar (cvRound (SFabs (b32_add (b32_mul (b32_of_Z v) a) b))).

(** [cv2.convertScaleAbs(frame, alpha=..., beta=...)]. *)
Definition convertScaleAbs (frame : Frame) (alpha beta : float) : Frame :=
  map_frame (map_canali (scala_canale alpha beta)) frame.

(** [cv2.COLOR_BGR2GRAY] on one 8-bit pixel: fixed point with 15 fractional
    bits, [0.114 B + 0.587 G + 0.299 R] rounded to nearest. *)
Definition BY15 : Z := 3735.
Definition GY15 : Z := 19235.
Definition RY15 : Z := 9798.
Definition gray_shift : Z := 15.

Definition grigio (p : Pixel) : Z :=
  Z.shiftr (blu p * BY15 + verde p * GY15 + rosso p * RY15
            + Z.shiftl 1 (gray_shift - 1)) gray_shift.

(** [cv2.cvtColor(frame, cv2.COLOR_BGR2GRAY)]: one intensity per pixel. *)
Definition cvtColor_BGR2GRAY (frame : Frame) : list Z := map grigio (pixel_di frame).

(** [cv2.VideoWriter_fourcc(c1, c2, c3, c4)]. *)
Definition VideoWriter_fourcc (c1 c2 c3 c4 : ascii) : Z :=
  let b c := Z.land (Z.of_N (N_of_ascii c)) 255 in
  b c1 + Z.shiftl (b c2) 8 + Z.shiftl (b c3) 16 + Z.shiftl (b c4) 24.

End Cv2.

Module Np.

(** [np.mean] of an 8-bit image: the intensities are added in binary64 and
    the sum is divided, in binary64, by their number.  Every partial sum
    is an integer below [2^53] for an image of fewer than [2^45] pixels,
    so the order of the additions does not matter and the sum is exact;
    the division rounds. *)
Definition mean (gray_frame : list Z) : float :=
  PrimFloat.div (b64_of_Z (fold_right Z.add 0 gray_frame))
                (b64_of_Z (Z.of_nat (List.length gray_frame))).

End Np.

(** ** The world the function runs in *)

(** What [cv2.VideoCapture] finds behind a path it can open. *)
Record Video : Type := mkVideo {
  fps_video : float;          (* cv2.CAP_PROP_FPS *)
  larghezza_video : Z;        (* cv2.CAP_PROP_FRAME_WIDTH *)
  altezza_video : Z;          (* cv2.CAP_PROP_FRAME_HEIGHT *)
  fotogrammi : list Frame     (* the frames [cap.read()] yields, in order *)
}.

(** The media I/O facility: which paths open for reading, and which
    container the writer can create (path, codec, frame rate, size). *)
Record Ambiente : Type := mkAmbiente {
  apri_lettura : string -> option Video;
  apri_scrittura : string -> Z -> float -> Z * Z -> bool
}.

(** A stream handle: never opened, open, or given back, by [release()] or
    by the finaliser of the object that holds it. *)
Inductive Handle : Type := NonAperto | Aperto | Rilasciato.

(** The container a successful [cv2.VideoWriter(...)] creates. *)
Record Contenitore : Type := mkContenitore {
  c_percorso : string;
  c_codec : Z;
  c_fps : float;
  c_dimensioni : Z * Z
}.

(** The lines the function prints; a luminance is the value handed to the
    [:.2f] format. *)
Inductive Messaggio : Type :=
| ErroreInput (percorso : string)
| ErroreOutput (percorso : string)
| InizioAnalisi (percorso : string)
| Salvataggio (percorso : string)
| FrameRateOriginale (fps : float)
| Sottoesposto (frame_count : Z) (luminosita_media : float)
| Sovraesposto (frame_count : Z) (luminosita_media : float)
| Completato (percorso : string).

Record Stato : Type := mkStato {
  cap : Handle;                       (* the VideoCapture handle *)
  out : Handle;                       (* the VideoWriter handle *)
  file_output : option Contenitore;   (* the output file, once created *)
  scritti : list Frame;               (* frames passed to [out.write], oldest first *)
  misure : list (Z * float);          (* trace of [np.mean]: frame index, luminance *)
  stdout : list Messaggio             (* console, oldest first *)
}.

Definition stato_iniziale : Stato := mkStato NonAperto NonAperto None [] [] [].

(** ** State and exceptions *)

Inductive Eccezione : Type :=
| ZeroDivisionError     (* [x / y] with [y == 0] *)
| OverflowError         (* [int(x)] with [x] infinite *)
| ValueError.           (* [int(x)] with [x] NaN *)

Inductive Esito (A : Type) : Type :=
| Val (a : A)
| Solleva (e : Eccezione).
Arguments Val {A} a.
Arguments Solleva {A} e.

Definition M (A : Type) : Type := Stato -> Esito A * Stato.

Definition ret {A} (a : A) : M A := fun s => (Val a, s).

Definition bind {A B} (m : M A) (k : A -> M B) : M B :=
  fun s => match m s with
           | (Val a, s') => k a s'
           | (Solleva e, s') => (Solleva e, s')
           end.

Definition solleva {A} (e : Eccezione) : M A := fun s => (Solleva e, s).

Definition modifica (g : Stato -> Stato) : M unit := fun s => (Val tt, g s).

Declare Scope py_scope.
Delimit Scope py_scope with py.
Notation "x <- m ;; k" := (bind m (fun x => k))
  (at level 61, m at next level, right associativity) : py_scope.
Notation "m ;; k" := (bind m (fun _ => k))
  (at level 61, right associativity) : py_scope.
Open Scope py_scope.

(** Python [x / y] on floats. *)
Definition py_truediv (x y : float) : M float :=
  if nullo y then solleva ZeroDivisionError else ret (x / y)%float.

(** Python [int(x)] on a float. *)
Definition py_int (x : float) : M Z :=
  match Prim2SF x with
  | S754_nan => solleva ValueError
  | S754_infinity _ => solleva OverflowError
  | sf => ret (tronca (valore_sf sf))
  end.

Definition print (m : Messaggio) : M unit :=
  modifica (fun s => mkStato (cap s) (out s) (file_output s) (scritti s)
                             (misure s) (stdout s ++ [m])).

(** [cv2.VideoCapture(percorso)]: the handle is open when the path decodes. *)
Definition VideoCapture (amb : Ambiente) (percorso : string) : M (option Video) :=
  fun s => match apri_lettura amb percorso with
           | Some v => (Val (Some v),
                        mkStato Aperto (out s) (file_output s) (scritti s)
                                (misure s) (stdout s))
           | None => (Val None, s)
           end.

(** [cv2.VideoWriter(percorso, codec, fps, dimensioni)]: when the sink can
    be created the file exists from here on, with no frame in it; the value
    is [out.isOpened()]. *)
Definition VideoWriter (amb : Ambiente) (percorso : string) (codec : Z)
    (fps : float) (dimensioni : Z * Z) : M bool :=
  fun s => if apri_scrittura amb percorso codec fps dimensioni
           then (Val true,
                 mkStato (cap s) Aperto
                         (Some (mkContenitore percorso codec fps dimensioni))
                         [] (misure s) (stdout s))
           else (Val false, s).

(** [out.write(frame)]: appends to an open sink, ignored otherwise. *)
Definition out_write (frame : Frame) : M unit :=
  modifica (fun s => match out s with
                     | Aperto => mkStato (cap s) (out s) (file_output s)
                                         (scritti s ++ [frame]) (misure s) (stdout s)
                     | _ => s
                     end).

Definition handle_release (h : Handle) : Handle :=
  match h with Aperto => Rilasciato | _ => h end.

Definition cap_release : M unit :=
  modifica (fun s => mkStato (handle_release (cap s)) (out s) (file_output s)
                             (scritti s) (misure s) (stdout s)).

Definition out_release : M unit :=
  modifica (fun s => mkStato (cap s) (handle_release (out s)) (file_output s)
                             (scritti s) (misure s) (stdout s)).

(** What the interpreter does to the locals [cap] and [out] when the
    function returns: the last reference to each object goes, and the
    finaliser of the object gives back a handle that is still open. *)
Definition finalizza_locali (s : Stato) : Stato :=
  mkStato (handle_release (cap s)) (handle_release (out s)) (file_output s)
          (scritti s) (misure s) (stdout s).

(** A function call: locals are finalised on return; an exception leaves
    with the frame of the call, and its locals, held by the traceback. *)
Definition chiamata {A} (corpo : M A) : M A :=
  fun s => match corpo s with
           | (Val a, s') => (Val a, finalizza_locali s')
           | (Solleva e, s') => (Solleva e, s')
           end.

(** Records the value [np.mean] returned for the frame being analysed. *)
Definition annota_misura (frame_count : Z) (luminosita_media : float) : M unit :=
  modifica (fun s => mkStato (cap s) (out s) (file_output s) (scritti s)
                             (misure s ++ [(frame_count, luminosita_media)])
                             (stdout s)).

(** ** The function [analizza_e_modifica_video] *)

(** Lines 46-48: every how many frames one is analysed. *)
Definition calcola_frame_interval (fps fps_analisi : float) : M Z :=
  quoziente <- py_truediv fps fps_analisi ;;
  frame_interval <- py_int quoziente ;;
  ret (if frame_interval <? 1 then 1 else frame_interval).

(** Lines 58-81: analysis of one frame and its correction, if any.  The
    value is the frame that line 84 writes.  The flag
    [correzione_applicata] is assigned and never read. *)
Definition analizza_frame (frame_interval : Z)
    (soglia_sottoesposizione soglia_sovraesposizione fattore_correzione : float)
    (frame_count : Z) (frame : Frame) : M Frame :=
  if frame_count mod frame_interval =? 0 then
    let gray_frame := Cv2.cvtColor_BGR2GRAY frame in
    let luminosita_media := Np.mean gray_frame in
    annota_misura frame_count luminosita_media ;;
    if (luminosita_media <? soglia_sottoesposizione)%float then
      print (Sottoesposto frame_count luminosita_media) ;;
      ret (Cv2.convertScaleAbs frame fattore_correzione 0)
    else if (soglia_sovraesposizione <? luminosita_media)%float then
      print (Sovraesposto frame_count luminosita_media) ;;
      alpha <- py_truediv 1 fattore_correzione ;;
      ret (Cv2.convertScaleAbs frame alpha 0)
    else ret frame
  else ret frame.

(** Lines 50-85: the [while True] loop.  [da_leggere] are the frames the
    capture has not handed out yet; [cap.read()] takes the first one, and
    returns [ret = False] when none is left. *)
Fixpoint ciclo (frame_interval : Z)
    (soglia_sottoesposizione soglia_sovraesposizione fattore_correzione : float)
    (da_leggere : list Frame) (frame_count : Z) : M unit :=
  match da_leggere with
  | [] => ret tt
  | frame :: resto =>
      frame' <- analizza_frame frame_interval soglia_sottoesposizione
                  soglia_sovraesposizione fattore_correzione frame_count frame ;;
      out_write frame' ;;
      ciclo frame_interval soglia_sottoesposizione soglia_sovraesposizione
            fattore_correzione resto (frame_count + 1)
  end.

(** Lines 20-91, the body.  The width and the height come back from
    [cap.get] as whole-valued floats, on which [int] is the identity;
    [cv2.destroyAllWindows()] has no window to close. *)
Definition corpo (amb : Ambiente)
    (percorso_video_input percorso_video_output : string)
    (fps_analisi soglia_sottoesposizione soglia_sovraesposizione
       fattore_correzione : float) : M unit :=
  aperto <- VideoCapture amb percorso_video_input ;;
  match aperto with
  | None => print (ErroreInput percorso_video_input)
  | Some video =>
      let fps := fps_video video in
      let larghezza := larghezza_video video in
      let altezza := altezza_video video in
      let codec := Cv2.VideoWriter_fourcc "m" "p" "4" "v" in
      creato <- VideoWriter amb percorso_video_output codec fps
                  (larghezza, altezza) ;;
      if negb creato then print (ErroreOutput percorso_video_output)
      else
        print (InizioAnalisi percorso_video_input) ;;
        print (Salvataggio percorso_video_output) ;;
        print (FrameRateOriginale fps) ;;
        frame_interval <- calcola_frame_interval fps fps_analisi ;;
        ciclo frame_interval soglia_sottoesposizione soglia_sovraesposizione
              fattore_correzione (fotogrammi video) 0 ;;
        cap_release ;;
        out_release ;;
        print (Completato percorso_video_output)
  end.

(** A call of the function. *)
Definition analizza_e_modifica_video (amb : Ambiente)
    (percorso_video_input percorso_video_output : string)
    (fps_analisi soglia_sottoesposizione soglia_sovraesposizione
       fattore_correzione : float) : M unit :=
  chiamata (corpo amb percorso_video_input percorso_video_output fps_analisi
              soglia_sottoesposizione soglia_sovraesposizione fattore_correzione).

(** The defaults of the signature: [fps_analisi=1],
    [soglia_sottoesposizione=80], [soglia_sovraesposizione=180],
    [fattore_correzione=1.2]. *)
Definition analizza_e_modifica_video_default (amb : Ambiente)
    (percorso_video_input percorso_video_output : string) : M unit :=
  analizza_e_modifica_video amb percorso_video_input percorso_video_output
    1 80 180 0x1.3333333333333p+0.

(** ** The words of the specification *)

(** [clamp(round(gain * input), 0, 255)], in exact arithmetic. *)
Definition spec_scala (gain : Q) (input : Z) : Z :=
  clamp (arrotonda (gain * inject_Z input)) 0 255.

(** [floor(nativeFrameRate / sampleRateHz)], at least 1, in exact
    arithmetic. *)
Definition spec_sample_interval (nativeFrameRate sampleRateHz : Q) : Z :=
  Z.max 1 (Qfloor (nativeFrameRate / sampleRateHz)).

(** [n] is [round(x)]: an integer nearest to [x], the even one of the two
    when [x] lies half way. *)
Definition piu_vicino_pari (x : Q) (n : Z) : Prop :=
  (inject_Z n - (1 # 2) <= x)%Q /\ (x <= inject_Z n + (1 # 2))%Q
  /\ ((x == inject_Z n - (1 # 2))%Q \/ (x == inject_Z n + (1 # 2))%Q ->
      Z.even n = true).

(** No handle is held: it was never acquired, or it was given back. *)
Definition non_trattenuto (h : Handle) : Prop := h <> Aperto.

(** ** Vocabulary of the statements *)

(** Lines 46-48 bind an interval: the divisor is not zero and the binary64
    quotient is a finite number. *)
Definition intervallo_calcolabile (fps fps_analisi : float) : bool :=
  negb (nullo fps_analisi) && finito (fps / fps_analisi)%float.

(** The interval they bind then: the binary64 quotient, truncated, raised
    to 1. *)
Definition frame_interval_di (fps fps_analisi : float) : Z :=
  let t := tronca (valore (fps / fps_analisi)%float) in
  if t <? 1 then 1 else t.

(** The outcome of lines 46-48. *)
Definition esito_intervallo (fps fps_analisi : float) : Esito Z :=
  if nullo fps_analisi then Solleva ZeroDivisionError
  else match Prim2SF (fps / fps_analisi)%float with
       | S754_nan => Solleva ValueError
       | S754_infinity _ => Solleva OverflowError
       | _ => Val (frame_interval_di fps fps_analisi)
       end.

(** The floor of the binary64 quotient, raised to 1. *)
Definition floor_quoziente_b64 (fps fps_analisi : float) : Z :=
  Z.max 1 (Qfloor (valore (fps / fps_analisi)%float)).

(** The measured mean luminance of a frame (lines 60 and 62). *)
Definition luminosita (frame : Frame) : float :=
  Np.mean (Cv2.cvtColor_BGR2GRAY frame).

(** The test of line 58. *)
Definition campionato (frame_interval frame_count : Z) : bool :=
  frame_count mod frame_interval =? 0.

(** The two directions of correction and the gain of each. *)
Inductive Correzione : Type := Schiarisci | Scurisci.

Definition gain_di (fattore_correzione : float) (c : Correzione) : float :=
  match c with
  | Schiarisci => fattore_correzione
  | Scurisci => (1 / fattore_correzione)%float
  end.


(** The single-precision product of a channel and a gain. *)
Definition prodotto32 (gain : float) (v : Z) : spec_float :=
  b32_mul (b32_of_Z v) (b32_of_b64 gain).



(** The frame that reaches [out.write] when no exception is raised. *)
Definition frame_atteso (frame_interval : Z)
    (soglia_sottoesposizione soglia_sovraesposizione fattore_correzione : float)
    (frame_count : Z) (frame : Frame) : Frame :=
  if campionato frame_interval frame_count then
    if (luminosita frame <? soglia_sottoesposizione)%float then
      Cv2.convertScaleAbs frame fattore_correzione 0
    else if (soglia_sovraesposizione <? luminosita frame)%float then
      Cv2.convertScaleAbs frame (1 / fattore_correzione)%float 0
    else frame
  else frame.

Fixpoint attesi (frame_interval : Z)
    (soglia_sottoesposizione soglia_sovraesposizione fattore_correzione : float)
    (frame_count : Z) (frames : list Frame) : list Frame :=
  match frames with
  | [] => []
  | frame :: resto =>
      frame_atteso frame_interval soglia_sottoesposizione soglia_sovraesposizione
        fattore_correzione frame_count frame
      :: attesi frame_interval soglia_sottoesposizione soglia_sovraesposizione
           fattore_correzione (frame_count + 1) resto
  end.

(** The frame indices [k, k+1, ..., k+n-1]. *)
Fixpoint indici (k : Z) (n : nat) : list Z :=
  match n with
  | O => []
  | S n' => k :: indici (k + 1) n'
  end.

(** The run of the function from a fresh process. *)
Definition esecuzione (amb : Ambiente)
    (percorso_video_input percorso_video_output : string)
    (fps_analisi soglia_sottoesposizione soglia_sovraesposizione
       fattore_correzione : float) : Esito unit * Stato :=
  analizza_e_modifica_video amb percorso_video_input percorso_video_output
    fps_analisi soglia_sottoesposizione soglia_sovraesposizione
    fattore_correzione stato_iniziale.

(** The same up to the point where the function leaves: what the body did,
    before the locals are finalised. *)
Definition esecuzione_corpo (amb : Ambiente)
    (percorso_video_input percorso_video_output : string)
    (fps_analisi soglia_sottoesposizione soglia_sovraesposizione
       fattore_correzione : float) : Esito unit * Stato :=
  corpo amb percorso_video_input percorso_video_output
    fps_analisi soglia_sottoesposizione soglia_sovraesposizione
    fattore_correzione stato_iniziale.

(** The codec and the container the function asks the writer for. *)
Definition codec_mp4v : Z := Cv2.VideoWriter_fourcc "m" "p" "4" "v".

Definition contenitore_di (percorso_video_output : string) (video : Video)
  : Contenitore :=
  mkContenitore percorso_video_output codec_mp4v (fps_video video)
    (larghezza_video video, altezza_video video).

(** The state in which line 46 is reached: both streams open, the output
    file created and empty, three lines on the console. *)
Definition stato_streaming (percorso_video_input percorso_video_output : string)
    (video : Video) : Stato :=
  mkStato Aperto Aperto (Some (contenitore_di percorso_video_output video)) [] []
    [InizioAnalisi percorso_video_input; Salvataggio percorso_video_output;
     FrameRateOriginale (fps_video video)].

(** ** Vocabulary of the whole-run statements *)

(** The frame on which line 78 divides by zero: sampled, not under-exposed,
    over-exposed, and the factor is null. *)
Definition solleva_su (frame_interval : Z)
    (soglia_sottoesposizione soglia_sovraesposizione fattore_correzione : float)
    (frame_count : Z) (frame : Frame) : bool :=
  campionato frame_interval frame_count
  && negb (luminosita frame <? soglia_sottoesposizione)%float
  && (soglia_sovraesposizione <? luminosita frame)%float
  && nullo fattore_correzione.

(** How many frames the loop writes before it stops: all of them, or those
    before the first frame on which line 78 raises. *)
Fixpoint scritti_prima (frame_interval : Z)
    (soglia_sottoesposizione soglia_sovraesposizione fattore_correzione : float)
    (frame_count : Z) (frames : list Frame) : nat :=
  match frames with
  | [] => O
  | frame :: resto =>
      if solleva_su frame_interval soglia_sottoesposizione
           soglia_sovraesposizione fattore_correzione frame_count frame
      then O
      else S (scritti_prima frame_interval soglia_sottoesposizione
                soglia_sovraesposizione fattore_correzione (frame_count + 1) resto)
  end.

(** The console line, if any, that the analysis of one frame prints
    (lines 67 and 75). *)
Definition riga_di (frame_interval : Z)
    (soglia_sottoesposizione soglia_sovraesposizione : float)
    (frame_count : Z) (frame : Frame) : list Messaggio :=
  if campionato frame_interval frame_count then
    if (luminosita frame <? soglia_sottoesposizione)%float then
      [Sottoesposto frame_count (luminosita frame)]
    else if (soglia_sovraesposizione <? luminosita frame)%float then
      [Sovraesposto frame_count (luminosita frame)]
    else []
  else [].

Fixpoint righe (frame_interval : Z)
    (soglia_sottoesposizione soglia_sovraesposizione : float)
    (frame_count : Z) (frames : list Frame) : list Messaggio :=
  match frames with
  | [] => []
  | frame :: resto =>
      riga_di frame_interval soglia_sottoesposizione soglia_sovraesposizione
        frame_count frame
      ++ righe frame_interval soglia_sottoesposizione soglia_sovraesposizione
           (frame_count + 1) resto
  end.

(** The three lines printed before the loop (lines 39-41). *)
Definition intestazione (percorso_video_input percorso_video_output : string)
    (video : Video) : list Messaggio :=
  [InizioAnalisi percorso_video_input; Salvataggio percorso_video_output;
   FrameRateOriginale (fps_video video)].

(** Number of pixels of a frame. *)
Definition n_pixel (frame : Frame) : nat := List.length (pixel_di frame).

(** ** A small world for concrete runs *)

Module Esempio.

(** The binary64 numbers that the decimal literals 1.3, 0.1, 1e-310 and
    0.3333333333333333 denote. *)
Definition f_1_3 : float := 0x1.4cccccccccccdp+0.
Definition f_0_1 : float := 0x1.999999999999ap-4.
Definition f_1e_310 : float := 0x12688b70e62bp-1074.
Definition f_un_terzo : float := 0x1.5555555555555p-2.

Definition grigio_uniforme (v : Z) : Frame := frame_uniforme v 3.

Definition nero : Pixel := mkPixel 0 0 0.
Definition bianco : Pixel := mkPixel 255 255 255.

(** One white pixel and three black ones: a dark frame with a bright
    corner, of mean luminance 63.75. *)
Definition angolo_chiaro : Frame := mkFrame bianco [nero; nero; nero].

(** Three pixels of gray level 0, 0 and 1: mean luminance one third. *)
Definition un_terzo : Frame := mkFrame nero [nero; mkPixel 1 1 1].

(** Ten 2x2 frames at 20 frames per second. *)
Definition video_originale : Video :=
  mkVideo 20 2 2
    (map grigio_uniforme [0; 12; 50; 100; 150; 200; 255; 240; 90; 30]).

(** A hundred one-pixel frames at 20 frames per second. *)
Definition video_cento : Video :=
  mkVideo 20 1 1
    (map (fun k => frame_uniforme ((k * 37) mod 256) 0) (indici 0 100)).

(** Five 2x2 frames at 30 frames per second. *)
Definition video_prova : Video :=
  mkVideo 30 2 2
    [grigio_uniforme 95; grigio_uniforme 175; angolo_chiaro;
     grigio_uniforme 50; grigio_uniforme 255].

(** One 3x1 frame at 25 frames per second. *)
Definition video_terzi : Video := mkVideo 25 3 1 [un_terzo].

(** Four inputs decode; the only sink that can be created is
    [video_modificato.mp4]. *)
Definition amb : Ambiente :=
  mkAmbiente
    (fun p => if String.eqb p "video_originale.mp4" then Some video_originale
              else if String.eqb p "video_cento.mp4" then Some video_cento
              else if String.eqb p "video_prova.mp4" then Some video_prova
              else if String.eqb p "video_terzi.mp4" then Some video_terzi
              else None)
    (fun p _ _ _ => String.eqb p "video_modificato.mp4").

Definition esegui (input output : string) (fps_analisi sotto sovra fattore : float)
  : Esito unit * Stato :=
  esecuzione amb input output fps_analisi sotto sovra fattore.

(** The thresholds and the factor of the script's driver on the ten-frame
    input, analysing ten frames per second: every second frame is sampled. *)
Definition corsa : Esito unit * Stato :=
  esegui "video_originale.mp4" "video_modificato.mp4" 10 70 190 f_1_3.

(** The driver's call on the hundred-frame input. *)
Definition corsa_cento : Esito unit * Stato :=
  esegui "video_cento.mp4" "video_modificato.mp4" 5 70 190 f_1_3.

End Esempio.

(** ** More concrete runs *)

Module Prove.

(** A null factor, every frame sampled: frame 5 is the first above 190. *)
Definition corsa_fattore_nullo : Esito unit * Stato :=
  Esempio.esegui "video_originale.mp4" "video_modificato.mp4" 20 70 190 0.

(** Thresholds on the extreme luminances of the sampled frames, a null
    factor, every second frame sampled. *)
Definition corsa_entro_le_soglie : Esito unit * Stato :=
  Esempio.esegui "video_originale.mp4" "video_modificato.mp4" 10 0 255 0.

(** A requested rate above the frame rate of the input. *)
Definition corsa_frequenza_alta : Esito unit * Stato :=
  Esempio.esegui "video_originale.mp4" "video_modificato.mp4" 30 70 190
    Esempio.f_1_3.

(** A null sampling rate. *)
Definition corsa_frequenza_nulla : Esito unit * Stato :=
  Esempio.esegui "video_originale.mp4" "video_modificato.mp4" 0 70 190
    Esempio.f_1_3.

(** A sampling rate so small that the quotient of line 46 is infinite. *)
Definition corsa_frequenza_minima : Esito unit * Stato :=
  Esempio.esegui "video_originale.mp4" "video_modificato.mp4" Esempio.f_1e_310
    70 190 Esempio.f_1_3.






(** The three-pixel input with the under-exposure threshold on its
    luminance. *)
Definition corsa_un_terzo : Esito unit * Stato :=
  Esempio.esegui "video_terzi.mp4" "video_modificato.mp4" 25
    Esempio.f_un_terzo 180 Esempio.f_1_3.

(** The sink cannot be created. *)
Definition corsa_senza_output : Esito unit * Stato :=
  Esempio.esegui "video_originale.mp4" "cartella_mancante/video_modificato.mp4"
    5 70 190 Esempio.f_1_3.

End Prove.

(** Case analysis on the index of a frame of a concrete video: [Hj] states
    which frame sits at index [j]; [tac] closes the goal for each frame. *)
Ltac per_ogni_frame j Hj tac :=
  cbn [fotogrammi map Esempio.video_originale Esempio.video_prova
       Esempio.video_terzi] in Hj;
  repeat (destruct j as [|j];
          [cbn [nth_error] in Hj; injection Hj as <-; tac|]);
  try (destruct j; discriminate Hj).


(** * Properties *)

(** ** Rounding and saturation *)

Section Arrotondamento.

Lemma inject_Z_pred (m : Z) : (inject_Z (m - 1) == inject_Z m - 1)%Q.
Proof. unfold Z.sub. rewrite inject_Z_plus. reflexivity. Qed.

Lemma inject_Z_succ (m : Z) : (inject_Z (m + 1) == inject_Z m + 1)%Q.
Proof. rewrite inject_Z_plus. reflexivity. Qed.




(** There is one such integer. *)
Lemma piu_vicino_pari_unico (x : Q) (n n' : Z) :
  piu_vicino_pari x n -> piu_vicino_pari x n' -> n = n'.
Proof.
  intros (A & B & C) (A' & B' & C').
  assert (L1 : (inject_Z (n - 2) < inject_Z n')%Q).
  { replace (n - 2) with (n - 1 - 1) by lia. rewrite !inject_Z_pred. lra. }
  assert (L2 : (inject_Z (n' - 2) < inject_Z n)%Q).
  { replace (n' - 2) with (n' - 1 - 1) by lia. rewrite !inject_Z_pred. lra. }
  rewrite <- Zlt_Qlt in L1, L2.
  assert (D : n' = n \/ n' = n + 1 \/ n = n' + 1) by lia.
  destruct D as [D | [D | D]]; [symmetry; exact D | exfalso | exfalso].
  - subst n'. rewrite inject_Z_succ in A', B'.
    assert (E : (x == inject_Z n + (1 # 2))%Q) by lra.
    assert (En : Z.even n = true) by (apply C; right; exact E).
    assert (En' : Z.even (n + 1) = true).
    { apply C'. left. rewrite inject_Z_succ. lra. }
    change (n + 1) with (Z.succ n) in En'. rewrite Z.even_succ in En'.
    rewrite <- Z.negb_even, En in En'. discriminate.
  - subst n. rewrite inject_Z_succ in A, B.
    assert (E : (x == inject_Z n' + (1 # 2))%Q) by lra.
    assert (En : Z.even n' = true) by (apply C'; right; exact E).
    assert (En' : Z.even (n' + 1) = true).
    { apply C. left. rewrite inject_Z_succ. lra. }
    change (n' + 1) with (Z.succ n') in En'. rewrite Z.even_succ in En'.
    rewrite <- Z.negb_even, En in En'. discriminate.
Qed.


Lemma saturate_cast_uchar_clamp (z : Z) : saturate_cast_uchar z = clamp z 0 255.
Proof.
  unfold saturate_cast_uchar, clamp.
  destruct (Z.ltb_spec z 0); [lia|]. destruct (Z.ltb_spec 255 z); lia.
Qed.

Lemma clamp_valido (z : Z) : canale_valido (clamp z 0 255).
Proof. unfold canale_valido, clamp. lia. Qed.

Lemma saturate_cast_uchar_valido (z : Z) : canale_valido (saturate_cast_uchar z).
Proof. rewrite saturate_cast_uchar_clamp. apply clamp_valido. Qed.

(** [int()] truncates and the specification floors: they part only below
    zero, where the lower bound of 1 takes over. *)
Lemma tronca_floor (q : Q) :
  (if tronca q <? 1 then 1 else tronca q) = Z.max 1 (Qfloor q).
Proof.
  destruct q as [n d]. unfold tronca, Qfloor. simpl.
  destruct (Z_lt_le_dec n 0) as [Hn | Hn].
  - assert (Hq : Z.quot n (Z.pos d) <= 0).
    { rewrite <- (Z.opp_involutive n), Z.quot_opp_l by lia.
      pose proof (Z.quot_pos (- n) (Z.pos d)). lia. }
    assert (Hd : n / Z.pos d < 0) by (apply Z.div_lt_upper_bound; lia).
    destruct (Z.ltb_spec (Z.quot n (Z.pos d)) 1); lia.
  - rewrite Z.quot_div_nonneg by lia.
    destruct (Z.ltb_spec (n / Z.pos d) 1); lia.
Qed.

End Arrotondamento.

(** ** Comparison of floating-point data *)

Section Confronto.

Lemma SFcompare_opposto (x y : spec_float) :
  SFcompare y x = option_map CompOpp (SFcompare x y).
Proof.
  destruct x as [s1|s1| |s1 m1 e1], y as [s2|s2| |s2 m2 e2]; cbn;
    try reflexivity; try (destruct s1; reflexivity); try (destruct s2; reflexivity);
    try (destruct s1, s2; reflexivity).
  destruct s1, s2; try reflexivity.
  - rewrite (Z.compare_antisym e1 e2).
    destruct (e1 ?= e2); cbn; try reflexivity.
    change (Pos.compare_cont Eq m2 m1) with (Pos.compare m2 m1).
    change (Pos.compare_cont Eq m1 m2) with (Pos.compare m1 m2).
    rewrite (Pos.compare_antisym m1 m2). reflexivity.
  - rewrite (Z.compare_antisym e1 e2).
    destruct (e1 ?= e2); cbn; try reflexivity.
    change (Pos.compare_cont Eq m2 m1) with (Pos.compare m2 m1).
    change (Pos.compare_cont Eq m1 m2) with (Pos.compare m1 m2).
    rewrite (Pos.compare_antisym m1 m2). reflexivity.
Qed.

Lemma SFltb_asimmetrico (x y : spec_float) :
  SFltb x y = true -> SFltb y x = false.
Proof.
  unfold SFltb. rewrite (SFcompare_opposto x y).
  destruct (SFcompare x y) as [[| |]|]; cbn; congruence.
Qed.

(** Two data that compare equal compare alike with every other one. *)
Lemma SFcompare_uguali (x y z : spec_float) :
  SFeqb x y = true -> SFcompare x z = SFcompare y z.
Proof.
  unfold SFeqb.
  destruct x as [s1|s1| |s1 m1 e1], y as [s2|s2| |s2 m2 e2]; cbn;
    try discriminate; try (destruct s1; discriminate);
    try (destruct s2; discriminate); try (destruct s1, s2; discriminate).
  - intros _. destruct z; reflexivity.
  - destruct s1, s2; try discriminate; reflexivity.
  - destruct s1, s2; try discriminate;
      destruct (Z.compare_spec e1 e2) as [He| |]; try discriminate;
      change (Pos.compare_cont Eq m1 m2) with (Pos.compare m1 m2);
      destruct (Pos.compare_spec m1 m2) as [Hm| |]; try discriminate;
      subst; reflexivity.
Qed.

Lemma SFeqb_non_minore (x y : spec_float) :
  SFeqb x y = true -> SFltb x y = false /\ SFltb y x = false.
Proof.
  unfold SFeqb, SFltb. rewrite (SFcompare_opposto x y).
  destruct (SFcompare x y) as [[| |]|]; cbn; try discriminate. split; reflexivity.
Qed.


End Confronto.

(** ** Signs of floating-point data *)

Section Segni.

Variables prec emax : Z.

Lemma binary_round_aux_opposto (s : bool) (m e : Z) (l : location) :
  binary_round_aux prec emax (negb s) m e l
  = SFopp (binary_round_aux prec emax s m e l).
Proof.
  unfold binary_round_aux.
  destruct (shr_fexp prec emax m e l) as [mrs' e'].
  destruct (shr_fexp prec emax _ e' loc_Exact) as [mrs'' e''].
  destruct (shr_m mrs''); cbn; [reflexivity | | reflexivity].
  destruct (Z.leb _ _); reflexivity.
Qed.

Lemma binary_round_opposto (s : bool) (m : positive) (e : Z) :
  binary_round prec emax (negb s) m e = SFopp (binary_round prec emax s m e).
Proof.
  unfold binary_round. destruct (shl_align _ _ _) as [mz ez].
  apply binary_round_aux_opposto.
Qed.

Lemma SFmul_opposto (x y : spec_float) :
  SFmul prec emax x (SFopp y) = SFopp (SFmul prec emax x y).
Proof.
  destruct x as [s1|s1| |s1 m1 e1], y as [s2|s2| |s2 m2 e2]; cbn;
    try reflexivity; try (destruct s1, s2; reflexivity).
  rewrite <- binary_round_aux_opposto. f_equal. destruct s1, s2; reflexivity.
Qed.

Lemma SFdiv_opposto (x y : spec_float) :
  SFdiv prec emax x (SFopp y) = SFopp (SFdiv prec emax x y).
Proof.
  destruct x as [s1|s1| |s1 m1 e1], y as [s2|s2| |s2 m2 e2]; cbn;
    try reflexivity; try (destruct s1, s2; reflexivity).
  destruct (SFdiv_core_binary prec emax (Z.pos m1) e1 (Z.pos m2) e2) as [[mz ez] lz].
  rewrite <- binary_round_aux_opposto. f_equal. destruct s1, s2; reflexivity.
Qed.

Lemma SFabs_opposto (x : spec_float) : SFabs (SFopp x) = SFabs x.
Proof. destruct x; reflexivity. Qed.

(** Adding the positive zero changes at most the sign of a zero. *)
Lemma SFabs_piu_zero (x : spec_float) :
  SFabs (SFadd prec emax x (S754_zero false)) = SFabs x.
Proof. destruct x as [[|]|[|]| |s m e]; reflexivity. Qed.






End Segni.

(** ** Binary64 numbers *)

Section Binary64.

Lemma Prim2SF_zero : Prim2SF 0 = S754_zero false.
Proof. reflexivity. Qed.


Lemma ltb_asimmetrico (x y : float) : (x <? y)%float = true -> (y <? x)%float = false.
Proof. rewrite !ltb_spec. apply SFltb_asimmetrico. Qed.

Lemma eqb_non_minore (x y : float) :
  (x =? y)%float = true -> (x <? y)%float = false /\ (y <? x)%float = false.
Proof. rewrite eqb_spec, !ltb_spec. apply SFeqb_non_minore. Qed.

Lemma leb_non_maggiore (x y : float) :
  (x <=? y)%float = true -> (y <? x)%float = false.
Proof.
  rewrite leb_spec, ltb_spec. unfold SFleb, SFltb.
  rewrite (SFcompare_opposto (Prim2SF x) (Prim2SF y)).
  destruct (SFcompare (Prim2SF x) (Prim2SF y)) as [[| |]|]; cbn; congruence.
Qed.

(** [x == y] and [y <= z] leave no room for [z < x]; [x == z] and
    [y <= z] leave none for [x < y]. *)
Lemma eqb_leb_non_maggiore (x y z : float) :
  (x =? y)%float = true -> (y <=? z)%float = true -> (z <? x)%float = false.
Proof.
  rewrite eqb_spec, leb_spec, ltb_spec. intros E L.
  unfold SFltb. rewrite (SFcompare_opposto (Prim2SF x) (Prim2SF z)).
  rewrite (SFcompare_uguali _ _ (Prim2SF z) E).
  unfold SFleb in L.
  destruct (SFcompare (Prim2SF y) (Prim2SF z)) as [[| |]|]; cbn; congruence.
Qed.

Lemma leb_eqb_non_minore (x y z : float) :
  (x =? z)%float = true -> (y <=? z)%float = true -> (x <? y)%float = false.
Proof.
  rewrite eqb_spec, leb_spec, ltb_spec. intros E L.
  unfold SFltb. rewrite (SFcompare_uguali _ _ (Prim2SF y) E).
  rewrite (SFcompare_opposto (Prim2SF y) (Prim2SF z)).
  unfold SFleb in L.
  destruct (SFcompare (Prim2SF y) (Prim2SF z)) as [[| |]|]; cbn; congruence.
Qed.


Lemma nullo_opposto (x : float) : nullo (- x) = nullo x.
Proof.
  unfold nullo. rewrite !eqb_spec, opp_spec, Prim2SF_zero.
  destruct (Prim2SF x) as [[|]|[|]| |[|] m e]; reflexivity.
Qed.

Lemma inverso_opposto (x : float) : (1 / - x = - (1 / x))%float.
Proof.
  apply Prim2SF_inj. rewrite opp_spec, !div_spec, opp_spec.
  apply SFdiv_opposto.
Qed.




End Binary64.

(** ** Binary32 numbers and the scaling of a channel *)

Section Binary32.

Lemma b32_of_sf_opposto (x : spec_float) : b32_of_sf (SFopp x) = SFopp (b32_of_sf x).
Proof. destruct x as [s|s| |s m e]; try reflexivity. apply binary_round_opposto. Qed.

Lemma b32_of_b64_opposto (x : float) : b32_of_b64 (- x) = SFopp (b32_of_b64 x).
Proof. unfold b32_of_b64. rewrite opp_spec. apply b32_of_sf_opposto. Qed.


Lemma b32_of_b64_zero : b32_of_b64 0 = S754_zero false.
Proof. reflexivity. Qed.

(** With [beta = 0] the channel is the rounded absolute value of the
    single-precision product. *)
Lemma scala_canale_prodotto (alpha : float) (v : Z) :
  Cv2.scala_canale alpha 0 v
  = saturate_cast_uchar (Cv2.cvRound (SFabs (prodotto32 alpha v))).
Proof.
  unfold Cv2.scala_canale, prodotto32. rewrite b32_of_b64_zero.
  unfold b32_add. rewrite SFabs_piu_zero. reflexivity.
Qed.

Lemma scala_canale_opposto (alpha : float) (v : Z) :
  Cv2.scala_canale (- alpha) 0 v = Cv2.scala_canale alpha 0 v.
Proof.
  rewrite !scala_canale_prodotto. unfold prodotto32, b32_mul.
  rewrite b32_of_b64_opposto, SFmul_opposto, SFabs_opposto. reflexivity.
Qed.




Lemma scala_canale_valido (alpha beta : float) (v : Z) :
  canale_valido (Cv2.scala_canale alpha beta v).
Proof. unfold Cv2.scala_canale. apply saturate_cast_uchar_valido. Qed.

End Binary32.

(** ** Luminance and correction of a frame *)

Section Fotogramma.

Lemma grigio_uniforme (v : Z) : Cv2.grigio (mkPixel v v v) = v.
Proof.
  unfold Cv2.grigio, Cv2.BY15, Cv2.GY15, Cv2.RY15, Cv2.gray_shift. simpl.
  rewrite Z.shiftr_div_pow2 by lia.
  replace (v * 3735 + v * 19235 + v * 9798 + 16384) with (v * 2 ^ 15 + 16384) by lia.
  rewrite Z.div_add_l by lia. rewrite (Z.div_small 16384) by lia. lia.
Qed.




Lemma canali_frame_map (g : Z -> Z) (frame : Frame) :
  canali_frame (map_frame (map_canali g) frame) = map g (canali_frame frame).
Proof.
  unfold canali_frame, pixel_di, map_frame. cbn [primo_pixel altri_pixel].
  change (map_canali g (primo_pixel frame) :: map (map_canali g) (altri_pixel frame))
    with (map (map_canali g) (primo_pixel frame :: altri_pixel frame)).
  induction (primo_pixel frame :: altri_pixel frame) as [|p l IH]; [reflexivity|].
  cbn [map flat_map]. rewrite IH, map_app. reflexivity.
Qed.



Lemma convertScaleAbs_valido (fr : Frame) (alpha beta : float) :
  frame_valido (Cv2.convertScaleAbs fr alpha beta).
Proof.
  unfold frame_valido, Cv2.convertScaleAbs. rewrite canali_frame_map.
  rewrite Forall_forall. intros v Hv. apply in_map_iff in Hv.
  destruct Hv as (w & <- & _). apply scala_canale_valido.
Qed.

Lemma convertScaleAbs_opposto (frame : Frame) (alpha : float) :
  Cv2.convertScaleAbs frame (- alpha) 0 = Cv2.convertScaleAbs frame alpha 0.
Proof.
  unfold Cv2.convertScaleAbs, map_frame, map_canali.
  f_equal.
  - rewrite !scala_canale_opposto. reflexivity.
  - apply map_ext. intros p. rewrite !scala_canale_opposto. reflexivity.
Qed.

Lemma convertScaleAbs_n_pixel (frame : Frame) (alpha beta : float) :
  n_pixel (Cv2.convertScaleAbs frame alpha beta) = n_pixel frame.
Proof.
  unfold Cv2.convertScaleAbs, n_pixel, pixel_di, map_frame. cbn.
  rewrite length_map. reflexivity.
Qed.

End Fotogramma.

(** ** The loop *)

Section Ciclo.

Variable frame_interval : Z.
Variables soglia_sottoesposizione soglia_sovraesposizione fattore_correzione : float.

Local Abbreviation analizza :=
  (analizza_frame frame_interval soglia_sottoesposizione
     soglia_sovraesposizione fattore_correzione).
Local Abbreviation atteso :=
  (frame_atteso frame_interval soglia_sottoesposizione
     soglia_sovraesposizione fattore_correzione).
Local Abbreviation solleva_qui :=
  (solleva_su frame_interval soglia_sottoesposizione
     soglia_sovraesposizione fattore_correzione).
Local Abbreviation riga :=
  (riga_di frame_interval soglia_sottoesposizione soglia_sovraesposizione).
Local Abbreviation quanti :=
  (scritti_prima frame_interval soglia_sottoesposizione
     soglia_sovraesposizione fattore_correzione).

(** One frame, whatever the factor: the only exception is the division by
    zero of line 78, and only the console and the trace of measurements
    change. *)
Lemma analizza_frame_generale (frame_count : Z) (frame : Frame) (st : Stato) :
  exists st',
    analizza frame_count frame st
    = ((if solleva_qui frame_count frame then Solleva ZeroDivisionError
        else Val (atteso frame_count frame)), st')
    /\ cap st' = cap st /\ out st' = out st
    /\ file_output st' = file_output st /\ scritti st' = scritti st
    /\ stdout st' = stdout st ++ riga frame_count frame
    /\ misure st'
       = misure st
         ++ (if campionato frame_interval frame_count
             then [(frame_count, luminosita frame)] else []).
Proof.
  unfold analizza_frame, frame_atteso, solleva_su, riga_di. cbv zeta.
  change (Np.mean (Cv2.cvtColor_BGR2GRAY frame)) with (luminosita frame).
  generalize (luminosita frame). intros lum.
  destruct (campionato frame_interval frame_count) eqn:Hc;
    unfold campionato in Hc; rewrite Hc; cbn [andb].
  - unfold bind, annota_misura, print, modifica, py_truediv, ret, solleva.
    destruct (lum <? soglia_sottoesposizione)%float;
      [|destruct (soglia_sovraesposizione <? lum)%float;
        [destruct (nullo fattore_correzione)|]];
      cbn; eexists; repeat split; cbn; rewrite ?app_nil_r; reflexivity.
  - exists st. unfold ret. repeat split; rewrite app_nil_r; reflexivity.
Qed.

(** The loop, whatever the factor: it writes the expected images of the
    frames before the first one that raises, prints the lines up to and
    including that one, and touches neither handle. *)
Lemma ciclo_generale (frames : list Frame) :
  forall (frame_count : Z) (st : Stato),
    out st = Aperto ->
    exists st',
      ciclo frame_interval soglia_sottoesposizione soglia_sovraesposizione
            fattore_correzione frames frame_count st
      = ((if Nat.eqb (quanti frame_count frames) (List.length frames)
          then Val tt else Solleva ZeroDivisionError), st')
      /\ cap st' = cap st /\ out st' = Aperto
      /\ file_output st' = file_output st
      /\ scritti st'
         = scritti st
           ++ attesi frame_interval soglia_sottoesposizione
                soglia_sovraesposizione fattore_correzione frame_count
                (firstn (quanti frame_count frames) frames)
      /\ stdout st'
         = stdout st
           ++ righe frame_interval soglia_sottoesposizione
                soglia_sovraesposizione frame_count
                (firstn (S (quanti frame_count frames)) frames)
      /\ map fst (misure st')
         = map fst (misure st)
           ++ filter (campionato frame_interval)
                (indici frame_count
                   (List.length (firstn (S (quanti frame_count frames)) frames))).
Proof.
  induction frames as [|frame resto IH]; intros frame_count st Hout.
  - exists st. cbn. rewrite !app_nil_r. repeat split; assumption.
  - destruct (analizza_frame_generale frame_count frame st)
      as (st1 & E1 & Hc1 & Ho1 & Hf1 & Hs1 & Hp1 & Hm1).
    cbn [ciclo scritti_prima]. unfold bind at 1. rewrite E1.
    destruct (solleva_qui frame_count frame) eqn:Hr.
    + exists st1. cbn [Nat.eqb List.length firstn attesi righe indici filter].
      rewrite !app_nil_r.
      repeat split; try congruence.
      rewrite Hm1, map_app.
      unfold solleva_su in Hr. apply andb_prop in Hr. destruct Hr as [Hr _].
      apply andb_prop in Hr. destruct Hr as [Hr _].
      apply andb_prop in Hr. destruct Hr as [Hr _]. rewrite Hr. reflexivity.
    + unfold bind at 1. unfold out_write, modifica. rewrite Ho1, Hout.
      match goal with
      | |- context [ciclo _ _ _ _ resto _ ?s] => set (st2 := s)
      end.
      destruct (IH (frame_count + 1) st2 eq_refl)
        as (st' & E2 & Hc2 & Ho2 & Hf2 & Hs2 & Hp2 & Hm2).
      exists st'. rewrite E2. subst st2. cbn in Hc2, Hf2, Hs2, Hp2, Hm2.
      cbn [List.length Nat.eqb firstn attesi righe].
      repeat split.
      * congruence.
      * exact Ho2.
      * congruence.
      * rewrite Hs2, Hs1, <- app_assoc. reflexivity.
      * rewrite Hp2, Hp1, <- app_assoc. reflexivity.
      * rewrite Hm2, Hm1, map_app, <- app_assoc. f_equal.
        cbn [List.length indici filter].
        destruct (campionato frame_interval frame_count); reflexivity.
Qed.

(** No frame raises: the loop writes them all. *)
Lemma scritti_prima_tutti (frames : list Frame) :
  forall frame_count : Z,
    (forall (j : nat) (frame : Frame),
        nth_error frames j = Some frame ->
        solleva_qui (frame_count + Z.of_nat j) frame = false) ->
    quanti frame_count frames = List.length frames.
Proof.
  induction frames as [|f r IH]; intros k H; cbn; [reflexivity|].
  pose proof (H O f eq_refl) as H0. rewrite Z.add_0_r in H0. rewrite H0.
  f_equal. apply IH. intros j fr Hj.
  replace (k + 1 + Z.of_nat j) with (k + Z.of_nat (S j)) by lia.
  apply H. exact Hj.
Qed.

(** The first frame that raises is where the loop stops. *)
Lemma scritti_prima_primo (frames : list Frame) :
  forall (frame_count : Z) (n : nat) (frame : Frame),
    nth_error frames n = Some frame ->
    solleva_qui (frame_count + Z.of_nat n) frame = true ->
    (forall (j : nat) (fr : Frame),
        (j < n)%nat -> nth_error frames j = Some fr ->
        solleva_qui (frame_count + Z.of_nat j) fr = false) ->
    quanti frame_count frames = n.
Proof.
  induction frames as [|f r IH]; intros k n frame Hn Ht Hbefore.
  - destruct n; discriminate.
  - destruct n as [|n].
    + cbn in Hn. injection Hn as ->. cbn. rewrite Z.add_0_r in Ht. rewrite Ht. reflexivity.
    + cbn [scritti_prima].
      pose proof (Hbefore O f ltac:(lia) eq_refl) as H0. rewrite Z.add_0_r in H0.
      rewrite H0. f_equal. apply (IH (k + 1) n frame).
      * exact Hn.
      * replace (k + 1 + Z.of_nat n) with (k + Z.of_nat (S n)) by lia. exact Ht.
      * intros j fr Hj Hfr.
        replace (k + 1 + Z.of_nat j) with (k + Z.of_nat (S j)) by lia.
        apply Hbefore; [lia | exact Hfr].
Qed.

Lemma solleva_su_fattore (frame_count : Z) (frame : Frame) :
  nullo fattore_correzione = false -> solleva_qui frame_count frame = false.
Proof.
  intros H. unfold solleva_su. rewrite H. apply andb_false_r.
Qed.

Lemma scritti_prima_fattore (frame_count : Z) (frames : list Frame) :
  nullo fattore_correzione = false ->
  quanti frame_count frames = List.length frames.
Proof.
  intros H. apply scritti_prima_tutti. intros j frame _.
  apply solleva_su_fattore. exact H.
Qed.

Lemma attesi_length (frame_count : Z) (frames : list Frame) :
  List.length (attesi frame_interval soglia_sottoesposizione
                 soglia_sovraesposizione fattore_correzione frame_count frames)
  = List.length frames.
Proof.
  revert frame_count. induction frames as [|f r IH]; intros k; cbn; [|rewrite IH]; reflexivity.
Qed.

Lemma attesi_nth (frames : list Frame) :
  forall (frame_count : Z) (i : nat),
    nth_error (attesi frame_interval soglia_sottoesposizione
                 soglia_sovraesposizione fattore_correzione frame_count frames) i
    = option_map (atteso (frame_count + Z.of_nat i)) (nth_error frames i).
Proof.
  induction frames as [|f r IH]; intros k i.
  - destruct i; reflexivity.
  - destruct i as [|i].
    + cbn. rewrite Z.add_0_r. reflexivity.
    + cbn [attesi nth_error]. rewrite IH. f_equal. f_equal. lia.
Qed.

End Ciclo.

(** ** The sampling interval *)

Section IntervalloCalcolato.

Variables fps fps_analisi : float.

Lemma calcola_frame_interval_esito (st : Stato) :
  calcola_frame_interval fps fps_analisi st = (esito_intervallo fps fps_analisi, st).
Proof.
  unfold calcola_frame_interval, esito_intervallo, frame_interval_di, valore,
    py_truediv, py_int, bind, ret, solleva.
  destruct (nullo fps_analisi); [reflexivity|].
  destruct (Prim2SF (fps / fps_analisi)); reflexivity.
Qed.

Lemma esito_intervallo_calcolabile :
  intervallo_calcolabile fps fps_analisi = true ->
  esito_intervallo fps fps_analisi = Val (frame_interval_di fps fps_analisi).
Proof.
  unfold intervallo_calcolabile, esito_intervallo, finito.
  destruct (nullo fps_analisi); [discriminate|]. cbn [negb andb].
  destruct (Prim2SF (fps / fps_analisi)); cbn; try discriminate; reflexivity.
Qed.

(** Lines 46-48 either bind the interval or raise, and raise exactly when
    the divisor is zero or the quotient is not a finite number. *)
Lemma esito_intervallo_casi :
  (intervallo_calcolabile fps fps_analisi = true
   /\ esito_intervallo fps fps_analisi = Val (frame_interval_di fps fps_analisi))
  \/ (intervallo_calcolabile fps fps_analisi = false
      /\ ((nullo fps_analisi = true
           /\ esito_intervallo fps fps_analisi = Solleva ZeroDivisionError)
          \/ (nullo fps_analisi = false
              /\ (exists s, Prim2SF (fps / fps_analisi) = S754_infinity s)
              /\ esito_intervallo fps fps_analisi = Solleva OverflowError)
          \/ (nullo fps_analisi = false
              /\ Prim2SF (fps / fps_analisi) = S754_nan
              /\ esito_intervallo fps fps_analisi = Solleva ValueError))).
Proof.
  unfold intervallo_calcolabile, esito_intervallo, finito.
  destruct (nullo fps_analisi); cbn [negb andb].
  - right. split; [reflexivity|]. left. split; reflexivity.
  - destruct (Prim2SF (fps / fps_analisi)) as [s|s| |s m e]; cbn.
    + left. split; reflexivity.
    + right. split; [reflexivity|]. right. left.
      repeat split. exists s. reflexivity.
    + right. split; [reflexivity|]. right. right. repeat split.
    + left. split; reflexivity.
Qed.

Lemma frame_interval_di_floor :
  frame_interval_di fps fps_analisi = floor_quoziente_b64 fps fps_analisi.
Proof. unfold frame_interval_di, floor_quoziente_b64. apply tronca_floor. Qed.

Lemma frame_interval_di_positivo : 1 <= frame_interval_di fps fps_analisi.
Proof. rewrite frame_interval_di_floor. unfold floor_quoziente_b64. lia. Qed.

End IntervalloCalcolato.

(** ** The whole function *)

Section Esecuzione.

Variable amb : Ambiente.
Variables percorso_video_input percorso_video_output : string.
Variables fps_analisi soglia_sottoesposizione soglia_sovraesposizione
          fattore_correzione : float.

Local Abbreviation esegui :=
  (esecuzione amb percorso_video_input percorso_video_output
     fps_analisi soglia_sottoesposizione soglia_sovraesposizione
     fattore_correzione).
Local Abbreviation esegui_corpo :=
  (esecuzione_corpo amb percorso_video_input percorso_video_output
     fps_analisi soglia_sottoesposizione soglia_sovraesposizione
     fattore_correzione).

(** A run is the body followed, on return, by the finalisers. *)
Lemma esecuzione_chiamata :
  esegui = match esegui_corpo with
           | (Val a, s) => (Val a, finalizza_locali s)
           | (Solleva e, s) => (Solleva e, s)
           end.
Proof. reflexivity. Qed.

(** Input that does not open: one line on the console, nothing else. *)
Lemma corpo_input_non_aperto :
  apri_lettura amb percorso_video_input = None ->
  esegui_corpo
  = (Val tt, mkStato NonAperto NonAperto None [] [] [ErroreInput percorso_video_input]).
Proof.
  intros Hin.
  unfold esecuzione_corpo, corpo, bind, VideoCapture.
  rewrite Hin. reflexivity.
Qed.

Lemma esecuzione_input_non_aperto :
  apri_lettura amb percorso_video_input = None ->
  esegui = (Val tt, mkStato NonAperto NonAperto None [] [] [ErroreInput percorso_video_input]).
Proof.
  intros Hin. rewrite esecuzione_chiamata, (corpo_input_non_aperto Hin). reflexivity.
Qed.

Variable video : Video.
Hypothesis input_apribile : apri_lettura amb percorso_video_input = Some video.

(** Output that cannot be created: the body returns at line 37 with the
    capture open; the return gives it back. *)
Lemma corpo_output_non_creato :
  apri_scrittura amb percorso_video_output codec_mp4v (fps_video video)
    (larghezza_video video, altezza_video video) = false ->
  esegui_corpo
  = (Val tt, mkStato Aperto NonAperto None [] [] [ErroreOutput percorso_video_output]).
Proof.
  intros Hout.
  unfold esecuzione_corpo, corpo, bind, VideoCapture.
  rewrite input_apribile. unfold VideoWriter. fold codec_mp4v.
  cbn [stato_iniziale cap out file_output scritti misure stdout].
  rewrite Hout. reflexivity.
Qed.

Lemma esecuzione_output_non_creato :
  apri_scrittura amb percorso_video_output codec_mp4v (fps_video video)
    (larghezza_video video, altezza_video video) = false ->
  esegui
  = (Val tt, mkStato Rilasciato NonAperto None [] [] [ErroreOutput percorso_video_output]).
Proof.
  intros Hout. rewrite esecuzione_chiamata, (corpo_output_non_creato Hout). reflexivity.
Qed.

Hypothesis output_creabile :
  apri_scrittura amb percorso_video_output codec_mp4v (fps_video video)
    (larghezza_video video, altezza_video video) = true.

Local Abbreviation stato_streaming :=
  (stato_streaming percorso_video_input percorso_video_output video).
Local Abbreviation intervallo := (frame_interval_di (fps_video video) fps_analisi).
Local Abbreviation quanti :=
  (scritti_prima intervallo soglia_sottoesposizione soglia_sovraesposizione
     fattore_correzione 0 (fotogrammi video)).
Local Abbreviation completo :=
  (Nat.eqb quanti (List.length (fotogrammi video))).

Lemma corpo_fino_a_streaming :
  esegui_corpo
  = (frame_interval <- calcola_frame_interval (fps_video video) fps_analisi ;;
     ciclo frame_interval soglia_sottoesposizione soglia_sovraesposizione
           fattore_correzione (fotogrammi video) 0 ;;
     cap_release ;;
     out_release ;;
     print (Completato percorso_video_output)) stato_streaming.
Proof.
  unfold esecuzione_corpo, corpo.
  unfold bind at 1. unfold VideoCapture. rewrite input_apribile.
  unfold bind at 1. unfold VideoWriter. fold codec_mp4v.
  cbn [stato_iniziale cap out file_output scritti misure stdout].
  rewrite output_creabile. cbn [negb].
  reflexivity.
Qed.

(** Lines 46-48 raise: the exception leaves with both handles open and the
    output file created. *)
Lemma esecuzione_intervallo_solleva (e : Eccezione) :
  esito_intervallo (fps_video video) fps_analisi = Solleva e ->
  esegui = (Solleva e, stato_streaming).
Proof.
  intros He. rewrite esecuzione_chiamata, corpo_fino_a_streaming.
  unfold bind at 1. rewrite calcola_frame_interval_esito, He. reflexivity.
Qed.

(** A run that reaches the loop, whatever the factor. *)
Lemma esecuzione_generale :
  intervallo_calcolabile (fps_video video) fps_analisi = true ->
  exists st',
    esegui = ((if completo then Val tt else Solleva ZeroDivisionError), st')
    /\ cap st' = (if completo then Rilasciato else Aperto)
    /\ out st' = (if completo then Rilasciato else Aperto)
    /\ file_output st' = Some (contenitore_di percorso_video_output video)
    /\ scritti st'
       = attesi intervallo soglia_sottoesposizione soglia_sovraesposizione
           fattore_correzione 0 (firstn quanti (fotogrammi video))
    /\ stdout st'
       = intestazione percorso_video_input percorso_video_output video
         ++ righe intervallo soglia_sottoesposizione soglia_sovraesposizione 0
              (firstn (S quanti) (fotogrammi video))
         ++ (if completo then [Completato percorso_video_output] else [])
    /\ map fst (misure st')
       = filter (campionato intervallo)
           (indici 0 (List.length (firstn (S quanti) (fotogrammi video)))).
Proof.
  intros Hcalc.
  rewrite esecuzione_chiamata, corpo_fino_a_streaming.
  unfold bind at 1.
  rewrite calcola_frame_interval_esito, (esito_intervallo_calcolabile _ _ Hcalc).
  destruct (ciclo_generale intervallo soglia_sottoesposizione
              soglia_sovraesposizione fattore_correzione (fotogrammi video) 0
              stato_streaming eq_refl)
    as (st1 & E & Hc & Ho & Hfile & Hs & Hp & Hm).
  unfold bind at 1. rewrite E.
  destruct completo.
  - unfold bind, cap_release, out_release, print, modifica. cbn.
    eexists. split; [reflexivity|]. cbn.
    rewrite Hc, Ho, Hfile, Hs, Hp, Hm. unfold intestazione. cbn.
    repeat split.
  - exists st1. split; [reflexivity|].
    rewrite Hc, Ho, Hfile, Hs, Hp, Hm, app_nil_r. repeat split.
Qed.

(** Normal completion. *)
Lemma esecuzione_completa :
  intervallo_calcolabile (fps_video video) fps_analisi = true ->
  nullo fattore_correzione = false ->
  exists st',
    esegui = (Val tt, st')
    /\ cap st' = Rilasciato /\ out st' = Rilasciato
    /\ file_output st' = Some (contenitore_di percorso_video_output video)
    /\ scritti st'
       = attesi intervallo soglia_sottoesposizione soglia_sovraesposizione
           fattore_correzione 0 (fotogrammi video)
    /\ stdout st'
       = intestazione percorso_video_input percorso_video_output video
         ++ righe intervallo soglia_sottoesposizione soglia_sovraesposizione 0
              (fotogrammi video)
         ++ [Completato percorso_video_output]
    /\ map fst (misure st')
       = filter (campionato intervallo)
           (indici 0 (List.length (fotogrammi video))).
Proof.
  intros Hcalc Hf.
  destruct (esecuzione_generale Hcalc) as (st' & E & Hc & Ho & Hfile & Hs & Hp & Hm).
  pose proof (scritti_prima_fattore intervallo soglia_sottoesposizione
                soglia_sovraesposizione fattore_correzione 0 (fotogrammi video) Hf)
    as Hq.
  rewrite Hq, Nat.eqb_refl in *.
  rewrite firstn_all in Hs. rewrite firstn_all2 in Hp, Hm by lia.
  exists st'. repeat split; assumption.
Qed.

(** The frame written in position [i] of a completed run is the expected
    image of the frame read in position [i]. *)
Lemma scritto_atteso (i : nat) (frame : Frame) :
  intervallo_calcolabile (fps_video video) fps_analisi = true ->
  nullo fattore_correzione = false ->
  nth_error (fotogrammi video) i = Some frame ->
  nth_error (scritti (snd esegui)) i
  = Some (frame_atteso intervallo soglia_sottoesposizione
            soglia_sovraesposizione fattore_correzione (Z.of_nat i) frame).
Proof.
  intros Hcalc Hf Hi.
  destruct (esecuzione_completa Hcalc Hf) as (st' & E & _ & _ & _ & Hs & _).
  rewrite E. cbn [snd]. rewrite Hs, attesi_nth, Hi. reflexivity.
Qed.

End Esecuzione.

(** ** Properties of a run that reaches the loop *)

Section Streaming.

Variable amb : Ambiente.
Variables percorso_video_input percorso_video_output : string.
Variables fps_analisi soglia_sottoesposizione soglia_sovraesposizione
          fattore_correzione : float.
Variable video : Video.

Hypothesis input_apribile : apri_lettura amb percorso_video_input = Some video.
Hypothesis output_creabile :
  apri_scrittura amb percorso_video_output codec_mp4v (fps_video video)
    (larghezza_video video, altezza_video video) = true.
Hypothesis intervallo_calcolato :
  intervallo_calcolabile (fps_video video) fps_analisi = true.
Hypothesis fattore_non_nullo : nullo fattore_correzione = false.

Local Abbreviation esegui :=
  (esecuzione amb percorso_video_input percorso_video_output
     fps_analisi soglia_sottoesposizione soglia_sovraesposizione
     fattore_correzione).
Local Abbreviation intervallo := (frame_interval_di (fps_video video) fps_analisi).

(** C1: for an input of N frames on which lines 46-48 bind an interval
    (the requested rate is not zero and the binary64 quotient of line 46 is
    finite), the run writes exactly N frames, the frame in position [i]
    being the frame read in position [i], as it was read or corrected:
    nothing is dropped, repeated or moved. *)
Theorem conservazione_ordine_e_numero :
  fst esegui = Val tt
  /\ List.length (scritti (snd esegui)) = List.length (fotogrammi video)
  /\ forall (i : nat) (frame : Frame),
       nth_error (fotogrammi video) i = Some frame ->
       exists frame',
         nth_error (scritti (snd esegui)) i = Some frame'
         /\ (frame' = frame
             \/ exists c, frame' = Cv2.convertScaleAbs frame
                                     (gain_di fattore_correzione c) 0).
Proof.
  destruct (esecuzione_completa amb percorso_video_input percorso_video_output
              fps_analisi soglia_sottoesposizione soglia_sovraesposizione
              fattore_correzione video input_apribile output_creabile
              intervallo_calcolato fattore_non_nullo)
    as (st' & E & _ & _ & _ & Hs & _).
  split; [rewrite E; reflexivity|]. split.
  - rewrite E. cbn [snd]. rewrite Hs. apply attesi_length.
  - intros i frame Hi. eexists. split.
    + apply (scritto_atteso amb percorso_video_input percorso_video_output
               fps_analisi soglia_sottoesposizione soglia_sovraesposizione
               fattore_correzione video input_apribile output_creabile i frame
               intervallo_calcolato fattore_non_nullo Hi).
    + unfold frame_atteso.
      destruct (campionato _ _); [|left; reflexivity].
      destruct (_ <? soglia_sottoesposizione)%float;
        [right; exists Schiarisci; reflexivity|].
      destruct (soglia_sovraesposizione <? _)%float;
        [right; exists Scurisci; reflexivity|].
      left; reflexivity.
Qed.

(** C2: a frame whose index is not a multiple of the sampling interval,
    the one that lines 46-48 bind, is written exactly as it was read, in
    the same position. *)
Theorem passaggio_inalterato (i : nat) (frame : Frame) :
  nth_error (fotogrammi video) i = Some frame ->
  Z.of_nat i mod intervallo <> 0 ->
  (forall st : Stato,
      calcola_frame_interval (fps_video video) fps_analisi st
      = (Val intervallo, st))
  /\ nth_error (scritti (snd esegui)) i = Some frame.
Proof.
  intros Hi Hmod. split.
  { intros st.
    rewrite calcola_frame_interval_esito,
      (esito_intervallo_calcolabile _ _ intervallo_calcolato).
    reflexivity. }
  rewrite (scritto_atteso amb percorso_video_input percorso_video_output
             fps_analisi soglia_sottoesposizione soglia_sovraesposizione
             fattore_correzione video input_apribile output_creabile i frame
             intervallo_calcolato fattore_non_nullo Hi).
  unfold frame_atteso, campionato.
  destruct (Z.eqb_spec (Z.of_nat i mod intervallo) 0); [contradiction | reflexivity].
Qed.

(** C8: a sampled frame whose measured mean luminance lies strictly between
    the two thresholds is written exactly as it was read. *)
Theorem tra_le_soglie_inalterato (i : nat) (frame : Frame) :
  nth_error (fotogrammi video) i = Some frame ->
  Z.of_nat i mod intervallo = 0 ->
  (soglia_sottoesposizione <? luminosita frame)%float = true ->
  (luminosita frame <? soglia_sovraesposizione)%float = true ->
  nth_error (scritti (snd esegui)) i = Some frame.
Proof.
  intros Hi _ Hlo Hhi.
  rewrite (scritto_atteso amb percorso_video_input percorso_video_output
             fps_analisi soglia_sottoesposizione soglia_sovraesposizione
             fattore_correzione video input_apribile output_creabile i frame
             intervallo_calcolato fattore_non_nullo Hi).
  unfold frame_atteso.
  rewrite (ltb_asimmetrico _ _ Hlo), (ltb_asimmetrico _ _ Hhi).
  destruct (campionato _ _); reflexivity.
Qed.

(** C10: with thresholds in their documented order, a sampled frame whose
    measured mean luminance equals one of the two thresholds is written
    exactly as it was read: both tests are strict. *)
Theorem sulla_soglia_inalterato (i : nat) (frame : Frame) :
  nth_error (fotogrammi video) i = Some frame ->
  Z.of_nat i mod intervallo = 0 ->
  (soglia_sottoesposizione <=? soglia_sovraesposizione)%float = true ->
  (luminosita frame =? soglia_sottoesposizione)%float = true
  \/ (luminosita frame =? soglia_sovraesposizione)%float = true ->
  nth_error (scritti (snd esegui)) i = Some frame.
Proof.
  intros Hi _ Hord Heq.
  rewrite (scritto_atteso amb percorso_video_input percorso_video_output
             fps_analisi soglia_sottoesposizione soglia_sovraesposizione
             fattore_correzione video input_apribile output_creabile i frame
             intervallo_calcolato fattore_non_nullo Hi).
  unfold frame_atteso.
  assert (A : (luminosita frame <? soglia_sottoesposizione)%float = false).
  { destruct Heq as [E | E].
    - apply (eqb_non_minore _ _ E).
    - apply (leb_eqb_non_minore _ _ _ E Hord). }
  assert (B : (soglia_sovraesposizione <? luminosita frame)%float = false).
  { destruct Heq as [E | E].
    - apply (eqb_leb_non_maggiore _ _ _ E Hord).
    - apply (eqb_non_minore _ _ E). }
  rewrite A, B. destruct (campionato _ _); reflexivity.
Qed.

(** C6: whenever the requested rate is not zero and the binary64 quotient
    [fps / fps_analisi] is finite, the interval of lines 46-48 is the floor
    of that quotient raised to at least 1, and only then is there an
    interval; the frames analysed are those whose index is a multiple of
    it; at 20 frames per second with [fps_analisi = 5] the interval is 4
    and a 100-frame input is analysed at the indices 0, 4, 8, ..., 96 and
    nowhere else. *)
Theorem intervallo_di_campionamento :
  (forall (fps : float) (st : Stato),
      intervallo_calcolabile fps fps_analisi = true ->
      calcola_frame_interval fps fps_analisi st
      = (Val (floor_quoziente_b64 fps fps_analisi), st))
  /\ (forall (fps : float) (st st' : Stato) (k : Z),
         calcola_frame_interval fps fps_analisi st = (Val k, st') ->
         intervallo_calcolabile fps fps_analisi = true)
  /\ map fst (misure (snd esegui))
     = filter (campionato (floor_quoziente_b64 (fps_video video) fps_analisi))
         (indici 0 (List.length (fotogrammi video)))
  /\ (fps_video video = 20%float -> fps_analisi = 5%float ->
      List.length (fotogrammi video) = 100%nat ->
      floor_quoziente_b64 (fps_video video) fps_analisi = 4
      /\ map fst (misure (snd esegui))
         = [0; 4; 8; 12; 16; 20; 24; 28; 32; 36; 40; 44; 48; 52; 56; 60; 64;
            68; 72; 76; 80; 84; 88; 92; 96]).
Proof.
  destruct (esecuzione_completa amb percorso_video_input percorso_video_output
              fps_analisi soglia_sottoesposizione soglia_sovraesposizione
              fattore_correzione video input_apribile output_creabile
              intervallo_calcolato fattore_non_nullo)
    as (st' & E & _ & _ & _ & _ & _ & Hm).
  rewrite frame_interval_di_floor in Hm.
  split; [|split; [|split]].
  - intros fps st H.
    rewrite calcola_frame_interval_esito, (esito_intervallo_calcolabile _ _ H),
      frame_interval_di_floor.
    reflexivity.
  - intros fps st st1 k H. rewrite calcola_frame_interval_esito in H.
    destruct (esito_intervallo_casi fps fps_analisi)
      as [[Hc _] | [_ [[_ R] | [(_ & _ & R) | (_ & _ & R)]]]];
      [exact Hc | rewrite R in H; discriminate ..].
  - rewrite E. exact Hm.
  - intros Hfps Hrate Hlen.
    assert (I4 : floor_quoziente_b64 (fps_video video) fps_analisi = 4)
      by (rewrite Hfps, Hrate; reflexivity).
    split; [exact I4|].
    rewrite E. cbn [snd]. rewrite Hm, I4, Hlen. reflexivity.
Qed.

End Streaming.

(** ** The correction applied to a sampled frame *)

Section Correzioni.

Variable amb : Ambiente.
Variables percorso_video_input percorso_video_output : string.
Variables fps_analisi soglia_sottoesposizione soglia_sovraesposizione
          fattore_correzione : float.
Variable video : Video.

Hypothesis input_apribile : apri_lettura amb percorso_video_input = Some video.
Hypothesis output_creabile :
  apri_scrittura amb percorso_video_output codec_mp4v (fps_video video)
    (larghezza_video video, altezza_video video) = true.
Hypothesis intervallo_calcolato :
  intervallo_calcolabile (fps_video video) fps_analisi = true.
Hypothesis fattore_positivo : (0 <? fattore_correzione)%float = true.

Local Abbreviation esegui :=
  (esecuzione amb percorso_video_input percorso_video_output
     fps_analisi soglia_sottoesposizione soglia_sovraesposizione
     fattore_correzione).
Local Abbreviation intervallo := (frame_interval_di (fps_video video) fps_analisi).





End Correzioni.

(** ** Exits of the function *)

Section Uscite.

Variable amb : Ambiente.
Variables percorso_video_input percorso_video_output : string.
Variables fps_analisi soglia_sottoesposizione soglia_sovraesposizione
          fattore_correzione : float.

Local Abbreviation esegui :=
  (esecuzione amb percorso_video_input percorso_video_output
     fps_analisi soglia_sottoesposizione soglia_sovraesposizione
     fattore_correzione).
Local Abbreviation esegui_corpo :=
  (esecuzione_corpo amb percorso_video_input percorso_video_output
     fps_analisi soglia_sottoesposizione soglia_sovraesposizione
     fattore_correzione).

(** C5: when the input does not open, the function prints the error and
    returns before a writer is built: no output file exists, the writer
    handle was never opened and no frame was written. *)
Theorem input_non_aperto_nessun_output :
  apri_lettura amb percorso_video_input = None ->
  fst esegui = Val tt
  /\ stdout (snd esegui) = [ErroreInput percorso_video_input]
  /\ file_output (snd esegui) = None
  /\ out (snd esegui) = NonAperto
  /\ scritti (snd esegui) = [].
Proof.
  intros Hin.
  rewrite (esecuzione_input_non_aperto amb percorso_video_input
             percorso_video_output fps_analisi soglia_sottoesposizione
             soglia_sovraesposizione fattore_correzione Hin).
  repeat split.
Qed.

(** C9: with [fps_analisi = 0], once both streams are open, line 46 raises
    [ZeroDivisionError]; the exception leaves the function with the capture
    and the writer still open, and with the output file already created
    (empty). *)
Theorem fps_analisi_zero_divisione (video : Video) :
  apri_lettura amb percorso_video_input = Some video ->
  apri_scrittura amb percorso_video_output codec_mp4v (fps_video video)
    (larghezza_video video, altezza_video video) = true ->
  nullo fps_analisi = true ->
  fst esegui = Solleva ZeroDivisionError
  /\ cap (snd esegui) = Aperto
  /\ out (snd esegui) = Aperto
  /\ file_output (snd esegui) = Some (contenitore_di percorso_video_output video)
  /\ scritti (snd esegui) = [].
Proof.
  intros Hin Hout Hz.
  rewrite (esecuzione_intervallo_solleva amb percorso_video_input
             percorso_video_output fps_analisi soglia_sottoesposizione
             soglia_sovraesposizione fattore_correzione video Hin Hout
             ZeroDivisionError).
  - repeat split.
  - unfold esito_intervallo. rewrite Hz. reflexivity.
Qed.

Lemma handle_release_non_trattenuto (h : Handle) : non_trattenuto (handle_release h).
Proof. destruct h; discriminate. Qed.

(** On normal completion the body itself has released both handles. *)
Lemma corpo_completo (video : Video) :
  apri_lettura amb percorso_video_input = Some video ->
  apri_scrittura amb percorso_video_output codec_mp4v (fps_video video)
    (larghezza_video video, altezza_video video) = true ->
  intervallo_calcolabile (fps_video video) fps_analisi = true ->
  nullo fattore_correzione = false ->
  exists s,
    esegui_corpo = (Val tt, s) /\ cap s = Rilasciato /\ out s = Rilasciato.
Proof.
  intros Hin Hout Hcalc Hf.
  rewrite (corpo_fino_a_streaming amb percorso_video_input
             percorso_video_output fps_analisi soglia_sottoesposizione
             soglia_sovraesposizione fattore_correzione video Hin Hout).
  unfold bind at 1.
  rewrite calcola_frame_interval_esito, (esito_intervallo_calcolabile _ _ Hcalc).
  destruct (ciclo_generale (frame_interval_di (fps_video video) fps_analisi)
              soglia_sottoesposizione soglia_sovraesposizione
              fattore_correzione (fotogrammi video) 0
              (stato_streaming percorso_video_input percorso_video_output video)
              eq_refl)
    as (st1 & E1 & Hc1 & Ho1 & _).
  unfold bind at 1. rewrite E1.
  rewrite (scritti_prima_fattore _ _ _ _ _ _ Hf), Nat.eqb_refl.
  unfold bind, cap_release, out_release, print, modifica. cbn.
  eexists. split; [reflexivity|]. cbn. rewrite Hc1, Ho1. split; reflexivity.
Qed.

(** C4: on every path on which the function returns, neither handle is
    held afterwards.  When the input does not open nothing was acquired.
    When the sink cannot be created the body returns at line 37 with the
    capture still open, and the return finalises the local [cap], which
    gives the handle back.  On normal completion lines 88-89 have released
    both handles before the return. *)
Theorem rilascio_a_ogni_uscita :
  (fst esegui = Val tt ->
   non_trattenuto (cap (snd esegui)) /\ non_trattenuto (out (snd esegui)))
  /\ (apri_lettura amb percorso_video_input = None ->
      fst esegui = Val tt
      /\ cap (snd esegui) = NonAperto /\ out (snd esegui) = NonAperto)
  /\ (forall video : Video,
         apri_lettura amb percorso_video_input = Some video ->
         apri_scrittura amb percorso_video_output codec_mp4v (fps_video video)
           (larghezza_video video, altezza_video video) = false ->
         fst esegui = Val tt
         /\ stdout (snd esegui) = [ErroreOutput percorso_video_output]
         /\ cap (snd esegui_corpo) = Aperto
         /\ cap (snd esegui) = Rilasciato
         /\ out (snd esegui) = NonAperto)
  /\ (forall video : Video,
         apri_lettura amb percorso_video_input = Some video ->
         apri_scrittura amb percorso_video_output codec_mp4v (fps_video video)
           (larghezza_video video, altezza_video video) = true ->
         intervallo_calcolabile (fps_video video) fps_analisi = true ->
         nullo fattore_correzione = false ->
         fst esegui = Val tt
         /\ cap (snd esegui_corpo) = Rilasciato
         /\ out (snd esegui_corpo) = Rilasciato
         /\ cap (snd esegui) = Rilasciato
         /\ out (snd esegui) = Rilasciato).
Proof.
  split; [|split; [|split]].
  - rewrite esecuzione_chiamata.
    destruct esegui_corpo as [[[]|e] s]; cbn; [|discriminate].
    intros _. split; apply handle_release_non_trattenuto.
  - intros Hin.
    rewrite (esecuzione_input_non_aperto amb percorso_video_input
               percorso_video_output fps_analisi soglia_sottoesposizione
               soglia_sovraesposizione fattore_correzione Hin).
    repeat split.
  - intros video Hin Hout.
    rewrite (esecuzione_output_non_creato amb percorso_video_input
               percorso_video_output fps_analisi soglia_sottoesposizione
               soglia_sovraesposizione fattore_correzione video Hin Hout).
    rewrite (corpo_output_non_creato amb percorso_video_input
               percorso_video_output fps_analisi soglia_sottoesposizione
               soglia_sovraesposizione fattore_correzione video Hin Hout).
    repeat split.
  - intros video Hin Hout Hcalc Hf.
    destruct (esecuzione_completa amb percorso_video_input percorso_video_output
                fps_analisi soglia_sottoesposizione soglia_sovraesposizione
                fattore_correzione video Hin Hout Hcalc Hf)
      as (st' & E & Hc & Ho & _).
    rewrite E. cbn [fst snd].
    destruct (corpo_completo video Hin Hout Hcalc Hf) as (s0 & E0 & Hc0 & Ho0).
    rewrite E0. cbn [snd].
    repeat split; assumption.
Qed.

End Uscite.

(** ** Concrete runs *)

Section Corse.

Local Open Scope string_scope.

Lemma conservazione_ordine_e_numero_witness :
  fst Esempio.corsa = Val tt
  /\ List.length (scritti (snd Esempio.corsa)) = 10%nat
  /\ forall (i : nat) (frame : Frame),
       nth_error (fotogrammi Esempio.video_originale) i = Some frame ->
       exists frame',
         nth_error (scritti (snd Esempio.corsa)) i = Some frame'
         /\ (frame' = frame
             \/ exists c, frame' = Cv2.convertScaleAbs frame
                                     (gain_di Esempio.f_1_3 c) 0).
Proof.
  refine (conservazione_ordine_e_numero Esempio.amb "video_originale.mp4"
            "video_modificato.mp4" 10 70 190 Esempio.f_1_3 Esempio.video_originale
            _ _ _ _).
  - reflexivity.
  - reflexivity.
  - vm_compute. reflexivity.
  - vm_compute. reflexivity.
Defined.

(** A rate of 1e-310 analyses per second on the ten-frame input at 20
    frames per second: the input opens, the sink is created, the rate and
    the factor are positive, and the run stops at line 46 with
    [OverflowError], no frame written. *)
Lemma conservazione_smentita :
  apri_lettura Esempio.amb "video_originale.mp4" = Some Esempio.video_originale
  /\ apri_scrittura Esempio.amb "video_modificato.mp4" codec_mp4v 20 (2, 2) = true
  /\ (0 <? Esempio.f_1e_310)%float = true
  /\ (0 <? Esempio.f_1_3)%float = true
  /\ List.length (fotogrammi Esempio.video_originale) = 10%nat
  /\ fst Prove.corsa_frequenza_minima = Solleva OverflowError
  /\ scritti (snd Prove.corsa_frequenza_minima) = []
  /\ List.length (scritti (snd Prove.corsa_frequenza_minima))
     <> List.length (fotogrammi Esempio.video_originale).
Proof.
  repeat split; try (vm_compute; reflexivity). vm_compute. discriminate.
Qed.

Lemma passaggio_inalterato_witness :
  (forall st : Stato,
      calcola_frame_interval 20 10 st = (Val (frame_interval_di 20 10), st))
  /\ nth_error (scritti (snd Esempio.corsa)) 1 = Some (Esempio.grigio_uniforme 12).
Proof.
  refine (passaggio_inalterato Esempio.amb "video_originale.mp4"
            "video_modificato.mp4" 10 70 190 Esempio.f_1_3 Esempio.video_originale
            _ _ _ _ 1%nat (Esempio.grigio_uniforme 12) _ _).
  - reflexivity.
  - reflexivity.
  - vm_compute. reflexivity.
  - vm_compute. reflexivity.
  - reflexivity.
  - vm_compute. discriminate.
Defined.

Lemma tra_le_soglie_inalterato_witness :
  nth_error (scritti (snd Esempio.corsa)) 4 = Some (Esempio.grigio_uniforme 150).
Proof.
  refine (tra_le_soglie_inalterato Esempio.amb "video_originale.mp4"
            "video_modificato.mp4" 10 70 190 Esempio.f_1_3 Esempio.video_originale
            _ _ _ _ 4%nat (Esempio.grigio_uniforme 150) _ _ _ _).
  - reflexivity.
  - reflexivity.
  - vm_compute. reflexivity.
  - vm_compute. reflexivity.
  - reflexivity.
  - vm_compute. reflexivity.
  - vm_compute. reflexivity.
  - vm_compute. reflexivity.
Defined.

(** Gray levels 0, 0 and 1 measure the binary64 number nearest to one
    third, which is the threshold 0.3333333333333333: the frame is on the
    threshold and is written as read. *)
Lemma sulla_soglia_inalterato_witness :
  nth_error (scritti (snd Prove.corsa_un_terzo)) 0 = Some Esempio.un_terzo.
Proof.
  refine (sulla_soglia_inalterato Esempio.amb "video_terzi.mp4"
            "video_modificato.mp4" 25 Esempio.f_un_terzo 180 Esempio.f_1_3
            Esempio.video_terzi _ _ _ _ 0%nat Esempio.un_terzo _ _ _ _).
  - reflexivity.
  - reflexivity.
  - vm_compute. reflexivity.
  - vm_compute. reflexivity.
  - reflexivity.
  - vm_compute. reflexivity.
  - vm_compute. reflexivity.
  - left. vm_compute. reflexivity.
Defined.

Lemma intervallo_di_campionamento_witness :
  floor_quoziente_b64 20 5 = 4
  /\ map fst (misure (snd Esempio.corsa_cento))
     = [0; 4; 8; 12; 16; 20; 24; 28; 32; 36; 40; 44; 48; 52; 56; 60; 64;
        68; 72; 76; 80; 84; 88; 92; 96]%Z.
Proof.
  refine (proj2 (proj2 (proj2
            (intervallo_di_campionamento Esempio.amb "video_cento.mp4"
               "video_modificato.mp4" 5 70 190 Esempio.f_1_3 Esempio.video_cento
               _ _ _ _))) _ _ _).
  - reflexivity.
  - reflexivity.
  - vm_compute. reflexivity.
  - vm_compute. reflexivity.
  - reflexivity.
  - reflexivity.
  - reflexivity.
Defined.

(** At 20 frames per second a rate of 1e-310 gives an infinite quotient:
    line 46 raises and binds no interval.  At 30 frames per second a rate
    of 0.1 gives the binary64 quotient 300, and the interval is 300, where
    the exact quotient of the two numbers is below 300. *)
Lemma intervallo_smentito :
  (0 <? Esempio.f_1e_310)%float = true
  /\ calcola_frame_interval 20 Esempio.f_1e_310 stato_iniziale
     = (Solleva OverflowError, stato_iniziale)
  /\ fst (calcola_frame_interval 20 Esempio.f_1e_310 stato_iniziale)
     <> Val (spec_sample_interval (valore 20) (valore Esempio.f_1e_310))
  /\ calcola_frame_interval 30 Esempio.f_0_1 stato_iniziale
     = (Val 300, stato_iniziale)
  /\ spec_sample_interval (valore 30) (valore Esempio.f_0_1) = 299
  /\ fst (calcola_frame_interval 30 Esempio.f_0_1 stato_iniziale)
     <> Val (spec_sample_interval (valore 30) (valore Esempio.f_0_1)).
Proof.
  repeat split; try (vm_compute; reflexivity); vm_compute; discriminate.
Qed.





Lemma fps_analisi_zero_divisione_witness :
  fst Prove.corsa_frequenza_nulla = Solleva ZeroDivisionError
  /\ cap (snd Prove.corsa_frequenza_nulla) = Aperto
  /\ out (snd Prove.corsa_frequenza_nulla) = Aperto
  /\ file_output (snd Prove.corsa_frequenza_nulla)
     = Some (contenitore_di "video_modificato.mp4" Esempio.video_originale)
  /\ scritti (snd Prove.corsa_frequenza_nulla) = [].
Proof.
  refine (fps_analisi_zero_divisione Esempio.amb "video_originale.mp4"
            "video_modificato.mp4" 0 70 190 Esempio.f_1_3 Esempio.video_originale
            _ _ _).
  - reflexivity.
  - reflexivity.
  - reflexivity.
Defined.

Lemma input_non_aperto_nessun_output_witness :
  fst (Esempio.esegui "assente.mp4" "video_modificato.mp4" 5 70 190 Esempio.f_1_3)
  = Val tt
  /\ stdout (snd (Esempio.esegui "assente.mp4" "video_modificato.mp4"
                    5 70 190 Esempio.f_1_3)) = [ErroreInput "assente.mp4"]
  /\ file_output (snd (Esempio.esegui "assente.mp4" "video_modificato.mp4"
                         5 70 190 Esempio.f_1_3)) = None
  /\ out (snd (Esempio.esegui "assente.mp4" "video_modificato.mp4"
                 5 70 190 Esempio.f_1_3)) = NonAperto
  /\ scritti (snd (Esempio.esegui "assente.mp4" "video_modificato.mp4"
                     5 70 190 Esempio.f_1_3)) = [].
Proof.
  refine (input_non_aperto_nessun_output Esempio.amb "assente.mp4"
            "video_modificato.mp4" 5 70 190 Esempio.f_1_3 _).
  reflexivity.
Defined.

(** The sink [cartella_mancante/video_modificato.mp4] cannot be created:
    the function prints the error and returns, and the capture that the
    body left open is given back at the return. *)
Lemma rilascio_a_ogni_uscita_witness :
  fst Prove.corsa_senza_output = Val tt
  /\ stdout (snd Prove.corsa_senza_output)
     = [ErroreOutput "cartella_mancante/video_modificato.mp4"]
  /\ cap (snd (esecuzione_corpo Esempio.amb "video_originale.mp4"
                 "cartella_mancante/video_modificato.mp4" 5 70 190 Esempio.f_1_3))
     = Aperto
  /\ cap (snd Prove.corsa_senza_output) = Rilasciato
  /\ out (snd Prove.corsa_senza_output) = NonAperto.
Proof.
  refine (proj1 (proj2 (proj2
            (rilascio_a_ogni_uscita Esempio.amb "video_originale.mp4"
               "cartella_mancante/video_modificato.mp4" 5 70 190 Esempio.f_1_3)))
            Esempio.video_originale _ _).
  - reflexivity.
  - reflexivity.
Defined.

(** Outside the documented constraints.  A negative factor: the absolute
    value of [convertScaleAbs] mirrors the scaled channel, where the
    formula of the specification would clamp it to 0. *)
Example fattore_negativo :
  Cv2.scala_canale (- Esempio.f_1_3) 0 50 = 65%Z
  /\ spec_scala (valore (- Esempio.f_1_3)) 50 = 0%Z.
Proof. split; vm_compute; reflexivity. Qed.

(** Thresholds in the reverse order, every frame sampled: frame 5, whose
    luminance 200 equals the under-exposure threshold, is above the
    over-exposure one, and darkened. *)
Example soglie_incrociate :
  nth_error
    (scritti (snd (Esempio.esegui "video_originale.mp4" "video_modificato.mp4"
                     20 200 100 Esempio.f_1_3))) 5
  = Some (Esempio.grigio_uniforme 154).
Proof. vm_compute. reflexivity. Qed.

(** A null factor: the first over-exposed sampled frame raises at line 78,
    after five of the ten frames were written. *)
Example fattore_nullo :
  fst Prove.corsa_fattore_nullo = Solleva ZeroDivisionError
  /\ List.length (scritti (snd Prove.corsa_fattore_nullo)) = 5%nat.
Proof. split; vm_compute; reflexivity. Qed.

(** The defaults of the signature on the ten-frame input: one analysis per
    second at 20 frames per second samples frame 0 only, a black frame
    that a gain of 1.2 leaves black; the output is the input. *)
Example corsa_con_i_default :
  analizza_e_modifica_video_default Esempio.amb "video_originale.mp4"
    "video_modificato.mp4" stato_iniziale
  = Esempio.esegui "video_originale.mp4" "video_modificato.mp4" 1 80 180
      0x1.3333333333333p+0
  /\ fst (Esempio.esegui "video_originale.mp4" "video_modificato.mp4" 1 80 180
            0x1.3333333333333p+0) = Val tt
  /\ map fst (misure (snd (Esempio.esegui "video_originale.mp4"
                             "video_modificato.mp4" 1 80 180
                             0x1.3333333333333p+0))) = [0%Z]
  /\ scritti (snd (Esempio.esegui "video_originale.mp4" "video_modificato.mp4"
                     1 80 180 0x1.3333333333333p+0))
     = fotogrammi Esempio.video_originale.
Proof.
  split; [vm_compute; reflexivity|]. split; [vm_compute; reflexivity|].
  split; vm_compute; reflexivity.
Qed.

(** A factor of ten millions: a channel at 214 still saturates at 255, a
    channel at 215 has a product beyond the 32-bit integers and is written
    as 0. *)
Example oltre_gli_interi :
  Cv2.scala_canale 10000000 0 214 = 255%Z /\ Cv2.scala_canale 10000000 0 215 = 0%Z.
Proof. split; vm_compute; reflexivity. Qed.

End Corse.

(** * The function on every input *)

(** ** Lists of frames and of console lines *)

Section Liste.

Lemma nth_error_firstn_some {A : Type} (l : list A) :
  forall (n i : nat) (x : A),
    nth_error (firstn n l) i = Some x -> nth_error l i = Some x /\ (i < n)%nat.
Proof.
  induction l as [|a l IH]; intros n i x H.
  - rewrite firstn_nil in H. destruct i; discriminate.
  - destruct n as [|n]; [destruct i; discriminate|].
    destruct i as [|i]; cbn in *.
    + split; [exact H | lia].
    + destruct (IH n i x H). split; [assumption | lia].
Qed.

Lemma firstn_succ_nth {A : Type} (l : list A) :
  forall (n : nat) (x : A),
    nth_error l n = Some x -> firstn (S n) l = firstn n l ++ [x].
Proof.
  induction l as [|a l IH]; intros n x H.
  - destruct n; discriminate.
  - destruct n as [|n]; cbn in *.
    + injection H as ->. reflexivity.
    + f_equal. apply (IH n x H).
Qed.

Lemma righe_app (frame_interval : Z) (sotto sovra : float) (l1 l2 : list Frame) :
  forall k : Z,
    righe frame_interval sotto sovra k (l1 ++ l2)
    = righe frame_interval sotto sovra k l1
      ++ righe frame_interval sotto sovra (k + Z.of_nat (List.length l1)) l2.
Proof.
  induction l1 as [|f l1 IH]; intros k.
  - cbn. rewrite Z.add_0_r. reflexivity.
  - cbn [app righe List.length]. rewrite IH, <- app_assoc. do 3 f_equal. lia.
Qed.

Lemma in_righe (frame_interval : Z) (sotto sovra : float) (m : Messaggio)
    (frames : list Frame) :
  forall k : Z,
    In m (righe frame_interval sotto sovra k frames)
    <-> exists (j : nat) (frame : Frame),
          nth_error frames j = Some frame
          /\ In m (riga_di frame_interval sotto sovra (k + Z.of_nat j) frame).
Proof.
  induction frames as [|f r IH]; intros k.
  - cbn. split; [tauto|]. intros (j & fr & H & _). destruct j; discriminate.
  - cbn [righe]. rewrite in_app_iff, IH. split.
    + intros [H | (j & fr & Hj & H)].
      * exists O, f. rewrite Z.add_0_r. split; [reflexivity | exact H].
      * exists (S j), fr. split; [exact Hj|].
        replace (k + Z.of_nat (S j)) with (k + 1 + Z.of_nat j) by lia. exact H.
    + intros (j & fr & Hj & H). destruct j as [|j].
      * cbn in Hj. injection Hj as ->. rewrite Z.add_0_r in H. left. exact H.
      * right. exists j, fr. split; [exact Hj|].
        replace (k + 1 + Z.of_nat j) with (k + Z.of_nat (S j)) by lia. exact H.
Qed.

End Liste.

(** ** Every run *)

Section OgniEsecuzione.

Variable amb : Ambiente.
Variables percorso_video_input percorso_video_output : string.
Variables fps_analisi soglia_sottoesposizione soglia_sovraesposizione
          fattore_correzione : float.

Local Abbreviation esegui :=
  (esecuzione amb percorso_video_input percorso_video_output
     fps_analisi soglia_sottoesposizione soglia_sovraesposizione
     fattore_correzione).

(** The ways a run can go. *)
Lemma esecuzione_casi :
  (apri_lettura amb percorso_video_input = None
   /\ esegui = (Val tt, mkStato NonAperto NonAperto None [] []
                          [ErroreInput percorso_video_input]))
  \/ (exists video,
        apri_lettura amb percorso_video_input = Some video
        /\ ((apri_scrittura amb percorso_video_output codec_mp4v (fps_video video)
               (larghezza_video video, altezza_video video) = false
             /\ esegui = (Val tt, mkStato Rilasciato NonAperto None [] []
                                    [ErroreOutput percorso_video_output]))
            \/ (apri_scrittura amb percorso_video_output codec_mp4v
                  (fps_video video)
                  (larghezza_video video, altezza_video video) = true
                /\ ((exists e,
                        esito_intervallo (fps_video video) fps_analisi = Solleva e
                        /\ esegui = (Solleva e,
                                     stato_streaming percorso_video_input
                                       percorso_video_output video))
                    \/ intervallo_calcolabile (fps_video video) fps_analisi
                       = true)))).
Proof.
  destruct (apri_lettura amb percorso_video_input) as [video|] eqn:Hin.
  - right. exists video. split; [reflexivity|].
    destruct (apri_scrittura amb percorso_video_output codec_mp4v (fps_video video)
                (larghezza_video video, altezza_video video)) eqn:Hout.
    + right. split; [reflexivity|].
      destruct (esito_intervallo_casi (fps_video video) fps_analisi)
        as [[Hc _] | [_ [[_ R] | [(_ & _ & R) | (_ & _ & R)]]]];
        [right; exact Hc | left ..];
        eexists; (split; [exact R|]);
        apply esecuzione_intervallo_solleva; assumption.
    + left. split; [reflexivity|].
      apply (esecuzione_output_non_creato _ _ _ _ _ _ _ video); assumption.
  - left. split; [reflexivity|]. apply esecuzione_input_non_aperto. exact Hin.
Qed.

(** X1: whenever a run leaves an output file, whatever its outcome, the
    file was created at the output path with codec [mp4v] and with the
    frame rate, the width and the height of the input. *)
Theorem contenitore_come_input (c : Contenitore) :
  file_output (snd esegui) = Some c ->
  exists video,
    apri_lettura amb percorso_video_input = Some video
    /\ c_percorso c = percorso_video_output
    /\ c_codec c = Cv2.VideoWriter_fourcc "m" "p" "4" "v"
    /\ c_fps c = fps_video video
    /\ c_dimensioni c = (larghezza_video video, altezza_video video).
Proof.
  intros Hc.
  destruct esecuzione_casi
    as [[_ E] | (video & Hin & [[_ E] | [Hout [(e & _ & E) | Hcalc]]])].
  - rewrite E in Hc. discriminate.
  - rewrite E in Hc. discriminate.
  - rewrite E in Hc. cbn in Hc. injection Hc as <-.
    exists video. repeat split. exact Hin.
  - destruct (esecuzione_generale amb percorso_video_input percorso_video_output
                fps_analisi soglia_sottoesposizione soglia_sovraesposizione
                fattore_correzione video Hin Hout Hcalc)
      as (st' & E & _ & _ & Hf & _).
    rewrite E in Hc. cbn [snd] in Hc. rewrite Hf in Hc. injection Hc as <-.
    exists video. repeat split. exact Hin.
Qed.


End OgniEsecuzione.

(** ** What reaches the output, on every run *)

Section Scritti.

Variable amb : Ambiente.
Variables percorso_video_input percorso_video_output : string.
Variables fps_analisi soglia_sottoesposizione soglia_sovraesposizione
          fattore_correzione : float.
Variable video : Video.
Hypothesis input_apribile : apri_lettura amb percorso_video_input = Some video.

Local Abbreviation esegui :=
  (esecuzione amb percorso_video_input percorso_video_output
     fps_analisi soglia_sottoesposizione soglia_sovraesposizione
     fattore_correzione).
Local Abbreviation intervallo := (frame_interval_di (fps_video video) fps_analisi).

Lemma frame_atteso_n_pixel (k : Z) (frame : Frame) :
  n_pixel (frame_atteso intervallo soglia_sottoesposizione
             soglia_sovraesposizione fattore_correzione k frame)
  = n_pixel frame.
Proof.
  unfold frame_atteso.
  destruct (campionato _ _); [|reflexivity].
  destruct (_ <? soglia_sottoesposizione)%float;
    [apply convertScaleAbs_n_pixel|].
  destruct (soglia_sovraesposizione <? _)%float;
    [apply convertScaleAbs_n_pixel | reflexivity].
Qed.

Lemma frame_atteso_valido (k : Z) (frame : Frame) :
  frame_valido frame ->
  frame_valido (frame_atteso intervallo soglia_sottoesposizione
                  soglia_sovraesposizione fattore_correzione k frame).
Proof.
  intros H. unfold frame_atteso.
  destruct (campionato _ _); [|exact H].
  destruct (_ <? soglia_sottoesposizione)%float; [apply convertScaleAbs_valido|].
  destruct (soglia_sovraesposizione <? _)%float;
    [apply convertScaleAbs_valido | exact H].
Qed.

(** Whatever was written in position [i] is the expected image of the
    frame read in position [i]. *)
Lemma scritti_generale (i : nat) (frame' : Frame) :
  nth_error (scritti (snd esegui)) i = Some frame' ->
  exists frame,
    nth_error (fotogrammi video) i = Some frame
    /\ frame' = frame_atteso intervallo soglia_sottoesposizione
                  soglia_sovraesposizione fattore_correzione (Z.of_nat i) frame.
Proof.
  intros Hw.
  destruct (esecuzione_casi amb percorso_video_input percorso_video_output
              fps_analisi soglia_sottoesposizione soglia_sovraesposizione
              fattore_correzione)
    as [[Hno _] | (video' & Hin & [[_ E] | [Hout [(e & _ & E) | Hcalc]]])].
  - congruence.
  - rewrite E in Hw. destruct i; discriminate.
  - rewrite E in Hw. destruct i; discriminate.
  - assert (video' = video) as -> by congruence.
    destruct (esecuzione_generale amb percorso_video_input percorso_video_output
                fps_analisi soglia_sottoesposizione soglia_sovraesposizione
                fattore_correzione video Hin Hout Hcalc)
      as (st' & E & _ & _ & _ & Hs & _).
    rewrite E in Hw. cbn [snd] in Hw. rewrite Hs, attesi_nth in Hw.
    destruct (nth_error (firstn _ (fotogrammi video)) i) as [frame|] eqn:Hn;
      [|discriminate].
    apply nth_error_firstn_some in Hn. destruct Hn as [Hn _].
    exists frame. split; [exact Hn|].
    cbn in Hw. injection Hw as <-. reflexivity.
Qed.

(** X11: on every run, also one cut short by an exception, the output never
    holds more frames than were read; the frame written in position [i]
    has as many pixels as the frame read in position [i], and holds 8-bit
    channel values if that one does. *)
Theorem scritti_stessa_forma :
  (List.length (scritti (snd esegui)) <= List.length (fotogrammi video))%nat
  /\ forall (i : nat) (frame' : Frame),
       nth_error (scritti (snd esegui)) i = Some frame' ->
       exists frame,
         nth_error (fotogrammi video) i = Some frame
         /\ n_pixel frame' = n_pixel frame
         /\ (frame_valido frame -> frame_valido frame').
Proof.
  split.
  - destruct (Nat.le_gt_cases (List.length (scritti (snd esegui)))
                (List.length (fotogrammi video))) as [H | H]; [exact H|].
    exfalso.
    destruct (nth_error (scritti (snd esegui)) (List.length (fotogrammi video)))
      as [frame'|] eqn:Hn.
    + destruct (scritti_generale _ _ Hn) as (frame & Hf & _).
      assert (Hb : nth_error (fotogrammi video) (List.length (fotogrammi video))
                   <> None) by congruence.
      apply nth_error_Some in Hb. lia.
    + apply nth_error_None in Hn. lia.
  - intros i frame' Hw. destruct (scritti_generale i frame' Hw) as (frame & Hf & ->).
    exists frame. split; [exact Hf|]. split.
    + apply frame_atteso_n_pixel.
    + apply frame_atteso_valido.
Qed.

End Scritti.

(** ** Runs that reach the loop, whatever the factor *)

Section OgniFattore.

Variable amb : Ambiente.
Variables percorso_video_input percorso_video_output : string.
Variables fps_analisi soglia_sottoesposizione soglia_sovraesposizione
          fattore_correzione : float.
Variable video : Video.

Hypothesis input_apribile : apri_lettura amb percorso_video_input = Some video.
Hypothesis output_creabile :
  apri_scrittura amb percorso_video_output codec_mp4v (fps_video video)
    (larghezza_video video, altezza_video video) = true.
Hypothesis intervallo_calcolato :
  intervallo_calcolabile (fps_video video) fps_analisi = true.

Local Abbreviation esegui :=
  (esecuzione amb percorso_video_input percorso_video_output
     fps_analisi soglia_sottoesposizione soglia_sovraesposizione
     fattore_correzione).
Local Abbreviation intervallo := (frame_interval_di (fps_video video) fps_analisi).

Lemma campionato_mod (k : Z) : campionato intervallo k = true <-> k mod intervallo = 0.
Proof. unfold campionato. apply Z.eqb_eq. Qed.

(** X3: with a null factor the function stops at the first sampled frame
    that is over-exposed and not under-exposed: it prints that frame's
    line, raises [ZeroDivisionError] at line 78, and leaves exactly the
    frames before it in the output, with both streams still open. *)
Theorem fattore_nullo_si_ferma (n : nat) (frame : Frame) :
  nullo fattore_correzione = true ->
  nth_error (fotogrammi video) n = Some frame ->
  Z.of_nat n mod intervallo = 0 ->
  (luminosita frame <? soglia_sottoesposizione)%float = false ->
  (soglia_sovraesposizione <? luminosita frame)%float = true ->
  (forall (j : nat) (fr : Frame),
      (j < n)%nat -> nth_error (fotogrammi video) j = Some fr ->
      Z.of_nat j mod intervallo = 0 ->
      (luminosita fr <? soglia_sottoesposizione)%float = true
      \/ (soglia_sovraesposizione <? luminosita fr)%float = false) ->
  fst esegui = Solleva ZeroDivisionError
  /\ List.length (scritti (snd esegui)) = n
  /\ cap (snd esegui) = Aperto
  /\ out (snd esegui) = Aperto
  /\ exists prima,
       stdout (snd esegui)
       = prima ++ [Sovraesposto (Z.of_nat n) (luminosita frame)].
Proof.
  intros Hz Hn Hmod Hno Hsi Hprima.
  assert (Hq : scritti_prima intervallo soglia_sottoesposizione
                 soglia_sovraesposizione fattore_correzione 0 (fotogrammi video) = n).
  { apply (scritti_prima_primo _ _ _ _ _ 0 n frame Hn).
    - unfold solleva_su. cbn [Z.add].
      apply campionato_mod in Hmod. rewrite Hmod, Hno, Hsi, Hz. reflexivity.
    - intros j fr Hj Hfr. unfold solleva_su. cbn [Z.add].
      destruct (campionato intervallo (Z.of_nat j)) eqn:Hc; [|reflexivity].
      apply campionato_mod in Hc.
      destruct (Hprima j fr Hj Hfr Hc) as [H | H]; rewrite H.
      + reflexivity.
      + cbn. rewrite andb_false_r. reflexivity. }
  assert (Hlt : (n < List.length (fotogrammi video))%nat)
    by (apply nth_error_Some; congruence).
  destruct (esecuzione_generale amb percorso_video_input percorso_video_output
              fps_analisi soglia_sottoesposizione soglia_sovraesposizione
              fattore_correzione video input_apribile output_creabile
              intervallo_calcolato)
    as (st' & E & Hc & Ho & _ & Hs & Hp & _).
  rewrite Hq in *.
  assert (Hneq : Nat.eqb n (List.length (fotogrammi video)) = false)
    by (apply Nat.eqb_neq; lia).
  rewrite Hneq in *. rewrite E. cbn [fst snd].
  split; [reflexivity|]. split; [|split; [exact Hc | split; [exact Ho|]]].
  - rewrite Hs, attesi_length, length_firstn. lia.
  - rewrite Hp, app_nil_r, (firstn_succ_nth _ _ _ Hn), righe_app.
    cbn [righe]. rewrite app_nil_r, length_firstn.
    replace (0 + Z.of_nat (Nat.min n (List.length (fotogrammi video))))
      with (Z.of_nat n) by lia.
    unfold riga_di. apply campionato_mod in Hmod. rewrite Hmod, Hno, Hsi.
    eexists. rewrite app_assoc. reflexivity.
Qed.

(** No sampled frame is outside the thresholds: nothing is corrected,
    nothing is printed by the loop and nothing raises. *)
Lemma esecuzione_senza_correzioni :
  (forall (j : nat) (frame : Frame),
      nth_error (fotogrammi video) j = Some frame ->
      Z.of_nat j mod intervallo = 0 ->
      (luminosita frame <? soglia_sottoesposizione)%float = false
      /\ (soglia_sovraesposizione <? luminosita frame)%float = false) ->
  fst esegui = Val tt
  /\ scritti (snd esegui) = fotogrammi video
  /\ stdout (snd esegui)
     = intestazione percorso_video_input percorso_video_output video
       ++ [Completato percorso_video_output]
  /\ cap (snd esegui) = Rilasciato
  /\ out (snd esegui) = Rilasciato.
Proof.
  intros Hbuoni.
  assert (Hgen : forall (frames : list Frame) (k : Z),
             (forall (j : nat) (frame : Frame),
                 nth_error frames j = Some frame ->
                 campionato intervallo (k + Z.of_nat j) = true ->
                 (luminosita frame <? soglia_sottoesposizione)%float = false
                 /\ (soglia_sovraesposizione <? luminosita frame)%float = false) ->
             scritti_prima intervallo soglia_sottoesposizione
               soglia_sovraesposizione fattore_correzione k frames
             = List.length frames
             /\ attesi intervallo soglia_sottoesposizione
                  soglia_sovraesposizione fattore_correzione k frames = frames
             /\ righe intervallo soglia_sottoesposizione
                  soglia_sovraesposizione k frames = []).
  { induction frames as [|f r IH]; intros k H; [repeat split|].
    assert (H0 : campionato intervallo k = true ->
                 (luminosita f <? soglia_sottoesposizione)%float = false
                 /\ (soglia_sovraesposizione <? luminosita f)%float = false).
    { intros Hc. apply (H O f eq_refl). rewrite Z.add_0_r. exact Hc. }
    destruct (IH (k + 1)) as (I1 & I2 & I3).
    { intros j frame Hj Hc. apply (H (S j) frame Hj).
      replace (k + Z.of_nat (S j)) with (k + 1 + Z.of_nat j) by lia. exact Hc. }
    cbn [scritti_prima attesi righe List.length].
    unfold solleva_su, frame_atteso, riga_di.
    destruct (campionato intervallo k).
    - destruct (H0 eq_refl) as [A B]. rewrite A, B. cbn.
      rewrite I1, I2, I3. repeat split.
    - cbn. rewrite I1, I2, I3. repeat split. }
  destruct (Hgen (fotogrammi video) 0) as (G1 & G2 & G3).
  { intros j frame Hj Hc. cbn [Z.add] in Hc. apply campionato_mod in Hc.
    apply (Hbuoni j frame Hj Hc). }
  destruct (esecuzione_generale amb percorso_video_input percorso_video_output
              fps_analisi soglia_sottoesposizione soglia_sovraesposizione
              fattore_correzione video input_apribile output_creabile
              intervallo_calcolato)
    as (st' & E & Hc & Ho & _ & Hs & Hp & _).
  rewrite G1, Nat.eqb_refl in *. rewrite E. cbn [fst snd].
  rewrite firstn_all in Hs. rewrite G2 in Hs.
  rewrite firstn_all2 in Hp by lia. rewrite G3 in Hp.
  repeat split; assumption.
Qed.

(** X6: when every sampled frame has its luminance within the two
    thresholds, bounds included, the output holds the input frames
    unchanged, the console holds the three opening lines and the closing
    one, and both streams are released; this holds for every factor, zero
    included, since line 78 is never reached. *)
Theorem video_ben_esposto_copiato :
  (forall (j : nat) (frame : Frame),
      nth_error (fotogrammi video) j = Some frame ->
      Z.of_nat j mod intervallo = 0 ->
      (soglia_sottoesposizione <=? luminosita frame)%float = true
      /\ (luminosita frame <=? soglia_sovraesposizione)%float = true) ->
  fst esegui = Val tt
  /\ scritti (snd esegui) = fotogrammi video
  /\ stdout (snd esegui)
     = [InizioAnalisi percorso_video_input; Salvataggio percorso_video_output;
        FrameRateOriginale (fps_video video); Completato percorso_video_output]
  /\ cap (snd esegui) = Rilasciato
  /\ out (snd esegui) = Rilasciato.
Proof.
  intros H. apply esecuzione_senza_correzioni.
  intros j frame Hj Hm. destruct (H j frame Hj Hm) as [A B].
  split; apply leb_non_maggiore; assumption.
Qed.

End OgniFattore.

(** ** The console of a completed run *)

Section Console.

Variable amb : Ambiente.
Variables percorso_video_input percorso_video_output : string.
Variables fps_analisi soglia_sottoesposizione soglia_sovraesposizione
          fattore_correzione : float.
Variable video : Video.

Hypothesis input_apribile : apri_lettura amb percorso_video_input = Some video.
Hypothesis output_creabile :
  apri_scrittura amb percorso_video_output codec_mp4v (fps_video video)
    (larghezza_video video, altezza_video video) = true.
Hypothesis intervallo_calcolato :
  intervallo_calcolabile (fps_video video) fps_analisi = true.
Hypothesis fattore_non_nullo : nullo fattore_correzione = false.

Local Abbreviation esegui :=
  (esecuzione amb percorso_video_input percorso_video_output
     fps_analisi soglia_sottoesposizione soglia_sovraesposizione
     fattore_correzione).
Local Abbreviation intervallo := (frame_interval_di (fps_video video) fps_analisi).

Lemma stdout_completo :
  stdout (snd esegui)
  = intestazione percorso_video_input percorso_video_output video
    ++ righe intervallo soglia_sottoesposizione soglia_sovraesposizione 0
         (fotogrammi video)
    ++ [Completato percorso_video_output].
Proof.
  destruct (esecuzione_completa amb percorso_video_input percorso_video_output
              fps_analisi soglia_sottoesposizione soglia_sovraesposizione
              fattore_correzione video input_apribile output_creabile
              intervallo_calcolato fattore_non_nullo)
    as (st' & E & _ & _ & _ & _ & Hp & _).
  rewrite E. exact Hp.
Qed.

Lemma in_riga_sottoesposto (k i : Z) (l : float) (frame : Frame) :
  In (Sottoesposto i l)
     (riga_di intervallo soglia_sottoesposizione soglia_sovraesposizione k frame)
  <-> i = k /\ l = luminosita frame /\ k mod intervallo = 0
      /\ (luminosita frame <? soglia_sottoesposizione)%float = true.
Proof.
  unfold riga_di, campionato. generalize (luminosita frame). intros lum.
  destruct (Z.eqb_spec (k mod intervallo) 0) as [Hm | Hm].
  - destruct (lum <? soglia_sottoesposizione)%float eqn:Hu.
    + cbn. split.
      * intros [H | []]. injection H as <- <-. repeat split; assumption.
      * intros (-> & -> & _). left. reflexivity.
    + destruct (soglia_sovraesposizione <? lum)%float; cbn.
      * split; [intros [H | []]; discriminate | intros (_ & _ & _ & H); discriminate].
      * split; [intros [] | intros (_ & _ & _ & H); discriminate].
  - cbn. split; [intros [] | intros (_ & _ & H & _); contradiction].
Qed.

Lemma in_riga_sovraesposto (k i : Z) (l : float) (frame : Frame) :
  In (Sovraesposto i l)
     (riga_di intervallo soglia_sottoesposizione soglia_sovraesposizione k frame)
  <-> i = k /\ l = luminosita frame /\ k mod intervallo = 0
      /\ (luminosita frame <? soglia_sottoesposizione)%float = false
      /\ (soglia_sovraesposizione <? luminosita frame)%float = true.
Proof.
  unfold riga_di, campionato. generalize (luminosita frame). intros lum.
  destruct (Z.eqb_spec (k mod intervallo) 0) as [Hm | Hm].
  - destruct (lum <? soglia_sottoesposizione)%float eqn:Hu.
    + cbn. split.
      * intros [H | []]. discriminate.
      * intros (_ & _ & _ & H & _). discriminate.
    + destruct (soglia_sovraesposizione <? lum)%float eqn:Ho; cbn.
      * split.
        -- intros [H | []]. injection H as <- <-. repeat split; assumption.
        -- intros (-> & -> & _). left. reflexivity.
      * split; [intros [] | intros (_ & _ & _ & _ & H)]. discriminate.
  - cbn. split; [intros [] | intros (_ & _ & H & _); contradiction].
Qed.

(** X2: on a completed run the console reports exactly the corrections.
    A line "under-exposed" naming the frame index [i] is there if and only
    if frame [i] exists, is sampled and measures below the under-exposure
    threshold; a line "over-exposed" if and only if frame [i] exists, is
    sampled, does not measure below the under-exposure threshold and
    measures above the over-exposure one; and the luminance a line is
    formatted from is the one measured on that frame. *)
Theorem righe_di_avanzamento (i : Z) :
  ((exists l, In (Sottoesposto i l) (stdout (snd esegui)))
   <-> exists (j : nat) (frame : Frame),
         i = Z.of_nat j
         /\ nth_error (fotogrammi video) j = Some frame
         /\ Z.of_nat j mod intervallo = 0
         /\ (luminosita frame <? soglia_sottoesposizione)%float = true)
  /\ ((exists l, In (Sovraesposto i l) (stdout (snd esegui)))
      <-> exists (j : nat) (frame : Frame),
            i = Z.of_nat j
            /\ nth_error (fotogrammi video) j = Some frame
            /\ Z.of_nat j mod intervallo = 0
            /\ (luminosita frame <? soglia_sottoesposizione)%float = false
            /\ (soglia_sovraesposizione <? luminosita frame)%float = true)
  /\ (forall l,
         In (Sottoesposto i l) (stdout (snd esegui))
         \/ In (Sovraesposto i l) (stdout (snd esegui)) ->
         exists (j : nat) (frame : Frame),
           i = Z.of_nat j
           /\ nth_error (fotogrammi video) j = Some frame
           /\ l = luminosita frame).
Proof.
  rewrite stdout_completo. unfold intestazione.
  assert (Su : forall l,
             In (Sottoesposto i l)
                ([InizioAnalisi percorso_video_input;
                  Salvataggio percorso_video_output;
                  FrameRateOriginale (fps_video video)]
                 ++ righe intervallo soglia_sottoesposizione
                      soglia_sovraesposizione 0 (fotogrammi video)
                 ++ [Completato percorso_video_output])
             <-> exists (j : nat) (frame : Frame),
                   i = Z.of_nat j
                   /\ nth_error (fotogrammi video) j = Some frame
                   /\ Z.of_nat j mod intervallo = 0
                   /\ l = luminosita frame
                   /\ (luminosita frame <? soglia_sottoesposizione)%float = true).
  { intros l. rewrite !in_app_iff, in_righe. split.
    - intros [H | [(j & frame & Hj & H) | H]].
      + cbn in H. destruct H as [H | [H | [H | []]]]; discriminate.
      + cbn [Z.add] in H. apply in_riga_sottoesposto in H.
        destruct H as (-> & -> & Hm & Hu). exists j, frame. repeat split; assumption.
      + cbn in H. destruct H as [H | []]. discriminate.
    - intros (j & frame & -> & Hj & Hm & -> & Hu). right. left.
      exists j, frame. split; [exact Hj|]. cbn [Z.add].
      apply in_riga_sottoesposto. repeat split; assumption. }
  assert (So : forall l,
             In (Sovraesposto i l)
                ([InizioAnalisi percorso_video_input;
                  Salvataggio percorso_video_output;
                  FrameRateOriginale (fps_video video)]
                 ++ righe intervallo soglia_sottoesposizione
                      soglia_sovraesposizione 0 (fotogrammi video)
                 ++ [Completato percorso_video_output])
             <-> exists (j : nat) (frame : Frame),
                   i = Z.of_nat j
                   /\ nth_error (fotogrammi video) j = Some frame
                   /\ Z.of_nat j mod intervallo = 0
                   /\ l = luminosita frame
                   /\ (luminosita frame <? soglia_sottoesposizione)%float = false
                   /\ (soglia_sovraesposizione <? luminosita frame)%float = true).
  { intros l. rewrite !in_app_iff, in_righe. split.
    - intros [H | [(j & frame & Hj & H) | H]].
      + cbn in H. destruct H as [H | [H | [H | []]]]; discriminate.
      + cbn [Z.add] in H. apply in_riga_sovraesposto in H.
        destruct H as (-> & -> & Hm & Hu & Ho). exists j, frame.
        repeat split; assumption.
      + cbn in H. destruct H as [H | []]. discriminate.
    - intros (j & frame & -> & Hj & Hm & -> & Hu & Ho). right. left.
      exists j, frame. split; [exact Hj|]. cbn [Z.add].
      apply in_riga_sovraesposto. repeat split; assumption. }
  split; [|split].
  - split.
    + intros (l & H). apply Su in H. destruct H as (j & frame & A & B & C & _ & D).
      exists j, frame. repeat split; assumption.
    + intros (j & frame & A & B & C & D). exists (luminosita frame).
      apply Su. exists j, frame. repeat split; assumption.
  - split.
    + intros (l & H). apply So in H.
      destruct H as (j & frame & A & B & C & _ & D & F).
      exists j, frame. repeat split; assumption.
    + intros (j & frame & A & B & C & D & F). exists (luminosita frame).
      apply So. exists j, frame. repeat split; assumption.
  - intros l [H | H].
    + apply Su in H. destruct H as (j & frame & A & B & _ & C & _).
      exists j, frame. repeat split; assumption.
    + apply So in H. destruct H as (j & frame & A & B & _ & C & _).
      exists j, frame. repeat split; assumption.
Qed.

End Console.

(** ** The sign of the factor *)

Section Segno.

Variable frame_interval : Z.
Variables soglia_sottoesposizione soglia_sovraesposizione fattore_correzione : float.

Lemma analizza_frame_opposto (frame_count : Z) (frame : Frame) (st : Stato) :
  analizza_frame frame_interval soglia_sottoesposizione soglia_sovraesposizione
    (- fattore_correzione) frame_count frame st
  = analizza_frame frame_interval soglia_sottoesposizione soglia_sovraesposizione
      fattore_correzione frame_count frame st.
Proof.
  unfold analizza_frame. cbv zeta.
  destruct (frame_count mod frame_interval =? 0); [|reflexivity].
  generalize (Np.mean (Cv2.cvtColor_BGR2GRAY frame)). intros lum.
  unfold bind, annota_misura, print, modifica, py_truediv, ret, solleva.
  destruct (lum <? soglia_sottoesposizione)%float.
  - rewrite convertScaleAbs_opposto. reflexivity.
  - destruct (soglia_sovraesposizione <? lum)%float; [|reflexivity].
    rewrite nullo_opposto.
    destruct (nullo fattore_correzione); [reflexivity|].
    rewrite inverso_opposto, convertScaleAbs_opposto. reflexivity.
Qed.

Lemma ciclo_opposto (frames : list Frame) :
  forall (frame_count : Z) (st : Stato),
    ciclo frame_interval soglia_sottoesposizione soglia_sovraesposizione
      (- fattore_correzione) frames frame_count st
    = ciclo frame_interval soglia_sottoesposizione soglia_sovraesposizione
        fattore_correzione frames frame_count st.
Proof.
  induction frames as [|frame resto IH]; intros k st; [reflexivity|].
  cbn [ciclo]. unfold bind at 1 3. rewrite analizza_frame_opposto.
  destruct (analizza_frame _ _ _ _ _ _ st) as [[frame'|e] st1]; [|reflexivity].
  unfold bind. destruct (out_write frame' st1) as [[[]|e] st2]; [|reflexivity].
  apply IH.
Qed.

End Segno.

Section SegnoDelFattore.

Variable amb : Ambiente.
Variables percorso_video_input percorso_video_output : string.
Variables fps_analisi soglia_sottoesposizione soglia_sovraesposizione
          fattore_correzione : float.

(** X5: the sign of the factor is ignored.  A run with [-f] ends in the
    same outcome and the same state as the run with [f]: same frames
    written, same console, same handles.  [convertScaleAbs] takes the
    absolute value of the scaled channel. *)
Theorem segno_del_fattore_ignorato :
  esecuzione amb percorso_video_input percorso_video_output fps_analisi
    soglia_sottoesposizione soglia_sovraesposizione (- fattore_correzione)
  = esecuzione amb percorso_video_input percorso_video_output fps_analisi
      soglia_sottoesposizione soglia_sovraesposizione fattore_correzione.
Proof.
  unfold esecuzione, analizza_e_modifica_video, chiamata.
  assert (E : corpo amb percorso_video_input percorso_video_output fps_analisi
                soglia_sottoesposizione soglia_sovraesposizione
                (- fattore_correzione) stato_iniziale
              = corpo amb percorso_video_input percorso_video_output fps_analisi
                  soglia_sottoesposizione soglia_sovraesposizione
                  fattore_correzione stato_iniziale).
  { unfold corpo, bind.
    destruct (VideoCapture amb percorso_video_input stato_iniziale)
      as [[[video|]|e] st0]; try reflexivity.
    destruct (VideoWriter amb percorso_video_output _ _ _ st0)
      as [[[|]|e] st1]; try reflexivity.
    cbv beta iota delta [negb print modifica].
    match goal with
    | |- context [calcola_frame_interval ?a ?b ?s] =>
        destruct (calcola_frame_interval a b s) as [[frame_interval|e] st2]
    end; [|reflexivity].
    rewrite ciclo_opposto. reflexivity. }
  rewrite E. reflexivity.
Qed.

End SegnoDelFattore.

(** ** How many frames are analysed *)

Section Intervallo.

Lemma filter_campionato_uno (n : nat) :
  forall k : Z, filter (campionato 1) (indici k n) = indici k n.
Proof.
  induction n as [|n IH]; intros k; [reflexivity|].
  cbn [indici filter]. unfold campionato at 1. rewrite Z.mod_1_r. cbn.
  rewrite IH. reflexivity.
Qed.

Lemma passo_soffitto (I k : Z) :
  1 <= I -> 0 <= k ->
  (k + 1 + I - 1) / I = (k + I - 1) / I + (if k mod I =? 0 then 1 else 0).
Proof.
  intros HI Hk.
  pose proof (Z.div_mod k I ltac:(lia)) as Hdm.
  pose proof (Z.mod_pos_bound k I ltac:(lia)) as Hb.
  set (q := k / I) in *. set (r := k mod I) in *. clearbody q r.
  destruct (Z.eqb_spec r 0) as [Hr | Hr].
  - subst k r. rewrite Z.add_0_r.
    replace (I * q + 1 + I - 1) with ((q + 1) * I) by lia.
    replace (I * q + I - 1) with (q * I + (I - 1)) by lia.
    rewrite Z.div_mul by lia. rewrite Z.div_add_l by lia.
    rewrite (Z.div_small (I - 1)) by lia. lia.
  - subst k.
    replace (I * q + r + 1 + I - 1) with ((q + 1) * I + r) by lia.
    replace (I * q + r + I - 1) with ((q + 1) * I + (r - 1)) by lia.
    rewrite !Z.div_add_l by lia.
    rewrite (Z.div_small r), (Z.div_small (r - 1)) by lia. lia.
Qed.

(** Multiples of [I] among [k, ..., k+n-1]. *)
Lemma conta_campionati (I : Z) (n : nat) :
  1 <= I ->
  forall k : Z,
    0 <= k ->
    Z.of_nat (List.length (filter (campionato I) (indici k n)))
    = (k + Z.of_nat n + I - 1) / I - (k + I - 1) / I.
Proof.
  intros HI. induction n as [|n IH]; intros k Hk.
  - cbn. rewrite Z.add_0_r. lia.
  - cbn [indici filter]. pose proof (passo_soffitto I k HI Hk) as Hp.
    specialize (IH (k + 1) ltac:(lia)).
    replace (k + Z.of_nat (S n) + I - 1) with (k + 1 + Z.of_nat n + I - 1) by lia.
    unfold campionato at 1.
    destruct (k mod I =? 0); cbn [List.length]; lia.
Qed.

Variable amb : Ambiente.
Variables percorso_video_input percorso_video_output : string.
Variables fps_analisi soglia_sottoesposizione soglia_sovraesposizione
          fattore_correzione : float.
Variable video : Video.

Hypothesis input_apribile : apri_lettura amb percorso_video_input = Some video.
Hypothesis output_creabile :
  apri_scrittura amb percorso_video_output codec_mp4v (fps_video video)
    (larghezza_video video, altezza_video video) = true.
Hypothesis intervallo_calcolato :
  intervallo_calcolabile (fps_video video) fps_analisi = true.
Hypothesis fattore_non_nullo : nullo fattore_correzione = false.

Local Abbreviation esegui :=
  (esecuzione amb percorso_video_input percorso_video_output
     fps_analisi soglia_sottoesposizione soglia_sovraesposizione
     fattore_correzione).
Local Abbreviation intervallo := (frame_interval_di (fps_video video) fps_analisi).

Lemma misure_completo :
  map fst (misure (snd esegui))
  = filter (campionato intervallo) (indici 0 (List.length (fotogrammi video))).
Proof.
  destruct (esecuzione_completa amb percorso_video_input percorso_video_output
              fps_analisi soglia_sottoesposizione soglia_sovraesposizione
              fattore_correzione video input_apribile output_creabile
              intervallo_calcolato fattore_non_nullo)
    as (st' & E & _ & _ & _ & _ & _ & Hm).
  rewrite E. exact Hm.
Qed.

(** X8: when the quotient [fps / fps_analisi] of line 46 is below 2, and so
    whenever it is below 1 (a requested rate above the frame rate, a
    negative rate, a frame rate of 0), the interval is 1 and every frame
    of the input is analysed, in order. *)
Theorem quoziente_sotto_uno_ogni_frame :
  (valore (fps_video video / fps_analisi) < 2)%Q ->
  intervallo = 1
  /\ map fst (misure (snd esegui))
     = indici 0 (List.length (fotogrammi video)).
Proof.
  intros Hq.
  assert (I1 : intervallo = 1).
  { rewrite frame_interval_di_floor. unfold floor_quoziente_b64.
    pose proof (Qfloor_le (valore (fps_video video / fps_analisi))) as Hfl.
    assert (L : (inject_Z (Qfloor (valore (fps_video video / fps_analisi)))
                 < inject_Z 2)%Q).
    { eapply Qle_lt_trans; [exact Hfl | exact Hq]. }
    rewrite <- Zlt_Qlt in L. lia. }
  split; [exact I1|].
  rewrite misure_completo, I1. apply filter_campionato_uno.
Qed.

(** X10: a completed run on [N] frames with interval [I] analyses
    [ceil(N / I)] frames. *)
Theorem numero_di_frame_analizzati :
  Z.of_nat (List.length (misure (snd esegui)))
  = (Z.of_nat (List.length (fotogrammi video)) + intervallo - 1) / intervallo.
Proof.
  rewrite <- (length_map fst), misure_completo.
  pose proof (frame_interval_di_positivo (fps_video video) fps_analisi) as HI.
  rewrite (conta_campionati intervallo _ HI 0) by lia.
  rewrite (Z.div_small (0 + intervallo - 1)) by lia.
  rewrite Z.add_0_l, Z.sub_0_r. reflexivity.
Qed.

End Intervallo.

(** ** Concrete runs for the whole-run properties *)

Section AltreCorse.

Local Open Scope string_scope.

Lemma contenitore_come_input_witness :
  exists video,
    apri_lettura Esempio.amb "video_originale.mp4" = Some video
    /\ c_percorso (contenitore_di "video_modificato.mp4" Esempio.video_originale)
       = "video_modificato.mp4"
    /\ c_codec (contenitore_di "video_modificato.mp4" Esempio.video_originale)
       = Cv2.VideoWriter_fourcc "m" "p" "4" "v"
    /\ c_fps (contenitore_di "video_modificato.mp4" Esempio.video_originale)
       = fps_video video
    /\ c_dimensioni (contenitore_di "video_modificato.mp4" Esempio.video_originale)
       = (larghezza_video video, altezza_video video).
Proof.
  refine (contenitore_come_input Esempio.amb "video_originale.mp4"
            "video_modificato.mp4" Esempio.f_1e_310 70 190 Esempio.f_1_3
            (contenitore_di "video_modificato.mp4" Esempio.video_originale) _).
  vm_compute. reflexivity.
Defined.


Lemma fattore_nullo_si_ferma_witness :
  fst Prove.corsa_fattore_nullo = Solleva ZeroDivisionError
  /\ List.length (scritti (snd Prove.corsa_fattore_nullo)) = 5%nat
  /\ cap (snd Prove.corsa_fattore_nullo) = Aperto
  /\ out (snd Prove.corsa_fattore_nullo) = Aperto
  /\ exists prima,
       stdout (snd Prove.corsa_fattore_nullo)
       = (prima ++ [Sovraesposto (Z.of_nat 5)
                      (luminosita (Esempio.grigio_uniforme 200))])%list.
Proof.
  refine (fattore_nullo_si_ferma Esempio.amb "video_originale.mp4"
            "video_modificato.mp4" 20 70 190 0 Esempio.video_originale
            _ _ _ 5%nat (Esempio.grigio_uniforme 200) _ _ _ _ _ _).
  - reflexivity.
  - reflexivity.
  - vm_compute. reflexivity.
  - reflexivity.
  - reflexivity.
  - vm_compute. reflexivity.
  - vm_compute. reflexivity.
  - vm_compute. reflexivity.
  - intros j fr Hlt Hj _.
    per_ogni_frame j Hj ltac:(first [right; vm_compute; reflexivity | exfalso; lia]).
Defined.

Lemma video_ben_esposto_copiato_witness :
  fst Prove.corsa_entro_le_soglie = Val tt
  /\ scritti (snd Prove.corsa_entro_le_soglie) = fotogrammi Esempio.video_originale
  /\ stdout (snd Prove.corsa_entro_le_soglie)
     = [InizioAnalisi "video_originale.mp4"; Salvataggio "video_modificato.mp4";
        FrameRateOriginale 20; Completato "video_modificato.mp4"]
  /\ cap (snd Prove.corsa_entro_le_soglie) = Rilasciato
  /\ out (snd Prove.corsa_entro_le_soglie) = Rilasciato.
Proof.
  refine (video_ben_esposto_copiato Esempio.amb "video_originale.mp4"
            "video_modificato.mp4" 10 0 255 0 Esempio.video_originale _ _ _ _).
  - reflexivity.
  - reflexivity.
  - vm_compute. reflexivity.
  - intros j frame Hj _.
    per_ogni_frame j Hj ltac:(split; vm_compute; reflexivity).
Defined.

Lemma righe_di_avanzamento_witness :
  ((exists l, In (Sottoesposto 2 l) (stdout (snd Esempio.corsa)))
   <-> exists (j : nat) (frame : Frame),
         2%Z = Z.of_nat j
         /\ nth_error (fotogrammi Esempio.video_originale) j = Some frame
         /\ (Z.of_nat j mod frame_interval_di 20 10)%Z = 0%Z
         /\ (luminosita frame <? 70)%float = true)
  /\ ((exists l, In (Sovraesposto 2 l) (stdout (snd Esempio.corsa)))
      <-> exists (j : nat) (frame : Frame),
            2%Z = Z.of_nat j
            /\ nth_error (fotogrammi Esempio.video_originale) j = Some frame
            /\ (Z.of_nat j mod frame_interval_di 20 10)%Z = 0%Z
            /\ (luminosita frame <? 70)%float = false
            /\ (190 <? luminosita frame)%float = true)
  /\ (forall l,
         In (Sottoesposto 2 l) (stdout (snd Esempio.corsa))
         \/ In (Sovraesposto 2 l) (stdout (snd Esempio.corsa)) ->
         exists (j : nat) (frame : Frame),
           2%Z = Z.of_nat j
           /\ nth_error (fotogrammi Esempio.video_originale) j = Some frame
           /\ l = luminosita frame).
Proof.
  refine (righe_di_avanzamento Esempio.amb "video_originale.mp4"
            "video_modificato.mp4" 10 70 190 Esempio.f_1_3 Esempio.video_originale
            _ _ _ _ 2%Z).
  - reflexivity.
  - reflexivity.
  - vm_compute. reflexivity.
  - vm_compute. reflexivity.
Defined.

Lemma quoziente_sotto_uno_ogni_frame_witness :
  frame_interval_di 20 30 = 1%Z
  /\ map fst (misure (snd Prove.corsa_frequenza_alta)) = indici 0 10.
Proof.
  refine (quoziente_sotto_uno_ogni_frame Esempio.amb "video_originale.mp4"
            "video_modificato.mp4" 30 70 190 Esempio.f_1_3 Esempio.video_originale
            _ _ _ _ _).
  - reflexivity.
  - reflexivity.
  - vm_compute. reflexivity.
  - vm_compute. reflexivity.
  - vm_compute. reflexivity.
Defined.

Lemma numero_di_frame_analizzati_witness :
  Z.of_nat (List.length (misure (snd Esempio.corsa_cento)))
  = ((100 + frame_interval_di 20 5 - 1) / frame_interval_di 20 5)%Z.
Proof.
  refine (numero_di_frame_analizzati Esempio.amb "video_cento.mp4"
            "video_modificato.mp4" 5 70 190 Esempio.f_1_3 Esempio.video_cento
            _ _ _ _).
  - reflexivity.
  - reflexivity.
  - vm_compute. reflexivity.
  - vm_compute. reflexivity.
Defined.

Lemma scritti_stessa_forma_witness :
  (List.length (scritti (snd Prove.corsa_fattore_nullo))
   <= List.length (fotogrammi Esempio.video_originale))%nat
  /\ forall (i : nat) (frame' : Frame),
       nth_error (scritti (snd Prove.corsa_fattore_nullo)) i = Some frame' ->
       exists frame,
         nth_error (fotogrammi Esempio.video_originale) i = Some frame
         /\ n_pixel frame' = n_pixel frame
         /\ (frame_valido frame -> frame_valido frame').
Proof.
  refine (scritti_stessa_forma Esempio.amb "video_originale.mp4"
            "video_modificato.mp4" 20 70 190 0 Esempio.video_originale _).
  reflexivity.
Defined.

End AltreCorse.
